(** * NeMo: the GPT2 neural module and the joint intent/slot training script

    A shallow embedding of

    - [nemo/collections/nlp/nm/trainables/common/huggingface/gpt2_nm.py]
      (module [GPT2nm] below), and
    - [examples/nlp/intent_detection_slot_tagging/joint_intent_slot_with_bert.py]
      (module [JointIntentSlot] below).

    Python exceptions are values of [exn]; a computation that may raise
    returns a [result].  Objects built by the wrapped libraries
    (transformers, the NeMo core, torch) are symbolic: a constructor call
    is recorded with the arguments it received, and what such an object
    answers when the code reads one of its attributes comes from an
    explicit oracle.  Python [float]s are IEEE binary64 numbers, i.e. the
    primitive [float] of Rocq. *)

From Stdlib Require Import ZArith List String Bool Uint63 Floats Lia.
From stdpp Require Import gmap strings.

Set Warnings "-inexact-float,-register-all".
Local Open Scope Z_scope.

(** ** Exceptions and results *)

Inductive exn : Type :=
| ValueError (msg : string)
| NameError (name : string)
| AttributeError (name : string)
| FileNotFoundError (msg : string)
| ZeroDivisionError.

Inductive result (A : Type) : Type :=
| Ok (a : A)
| Raise (e : exn).

Arguments Ok {A} a.
Arguments Raise {A} e.

#[global] Instance result_ret : MRet result := fun A a => Ok a.

#[global] Instance result_bind : MBind result := fun A B k m =>
  match m with
  | Ok a => k a
  | Raise e => Raise e
  end.

Definition is_ok {A : Type} (r : result A) : bool :=
  match r with Ok _ => true | Raise _ => false end.

Definition is_ValueError {A : Type} (r : result A) : bool :=
  match r with Raise (ValueError _) => true | _ => false end.

Definition is_NameError {A : Type} (r : result A) : bool :=
  match r with Raise (NameError _) => true | _ => false end.


(** Python truthiness of an optional string: [None] and [''] are false. *)
Definition truthy (s : option string) : bool :=
  match s with
  | None => false
  | Some EmptyString => false
  | Some (String _ _) => true
  end.

Definition is_not_None {A : Type} (x : option A) : bool :=
  match x with Some _ => true | None => false end.

(** ** gpt2_nm.py *)

Module GPT2nm.

(** What a module-level name is bound to. *)
Inductive pyobj : Type :=
| Imported (from_module name : string)
| ClassDef (name : string)
| StrList (items : list string).

(** The names the top level of gpt2_nm.py binds, in source order:
    the [from ... import ...] lines, [__all__] and [class GPT2]. *)
Definition module_globals : gmap string pyobj :=
  list_to_map
    [ ("List", Imported "typing" "List");
      ("Optional", Imported "typing" "Optional");
      ("GPT2Config", Imported "transformers" "GPT2Config");
      ("GPT2Model", Imported "transformers" "GPT2Model");
      ("TrainableNM", Imported "nemo.backends.pytorch.nm" "TrainableNM");
      ("PretrainedModelInfo", Imported "nemo.core.neural_modules" "PretrainedModelInfo");
      ("ChannelType", Imported "nemo.core.neural_types" "ChannelType");
      ("NeuralType", Imported "nemo.core.neural_types" "NeuralType");
      ("add_port_docs", Imported "nemo.utils.decorators" "add_port_docs");
      ("__all__", StrList ["GPT2"]);
      ("GPT2", ClassDef "GPT2") ]%string.

(** Evaluating a bare name inside a method: the module's globals are
    searched (no local or enclosing binding exists for the names used
    below, and the builtins hold neither of them); an unbound name raises
    [NameError]. *)
Definition load_global (G : gmap string pyobj) (x : string) : result pyobj :=
  match G !! x with
  | Some v => Ok v
  | None => Raise (NameError x)
  end.

(** Arguments of [GPT2.__init__]. *)
Record init_args : Type := {
  pretrained_model_name : option string;
  config_filename : option string;
  vocab_size : option Z;
  hidden_size : Z;
  num_hidden_layers : Z;
  num_attention_heads : Z;
  intermediate_size : Z;
  hidden_act : string;
  max_position_embeddings : Z;
  hidden_dropout_prob : float;
  attention_probs_dropout_prob : float;
  type_vocab_size : Z;
  initializer_range : float;
  layer_norm_eps : float
}.

(** The call [GPT2(pretrained_model_name=p, config_filename=c, vocab_size=v)]:
    every other parameter takes the default of the signature. *)
Definition call_with (p c : option string) (v : option Z) : init_args := {|
  pretrained_model_name := p;
  config_filename := c;
  vocab_size := v;
  hidden_size := 768;
  num_hidden_layers := 12;
  num_attention_heads := 12;
  intermediate_size := 3072;
  hidden_act := "gelu";
  max_position_embeddings := 512;
  hidden_dropout_prob := 0.1%float;
  attention_probs_dropout_prob := 0.1%float;
  type_vocab_size := 2;
  initializer_range := 0.02%float;
  layer_norm_eps := 1e-12%float
|}.

(** Keyword arguments of the configuration constructor call. *)
Record config_kwargs : Type := {
  kw_vocab_size_or_config_json_file : Z;
  kw_vocab_size : Z;
  kw_hidden_size : Z;
  kw_num_hidden_layers : Z;
  kw_num_attention_heads : Z;
  kw_intermediate_size : Z;
  kw_hidden_act : string;
  kw_max_position_embeddings : Z
}.

(** Symbolic objects of the transformers library: each remembers the
    class object that was called to build it. *)
Inductive hf_config : Type :=
| ConfigNew (cls : pyobj) (kw : config_kwargs)
| ConfigFromJsonFile (cls : pyobj) (file : string)
| ConfigOfPretrained (model_cls : pyobj) (name : string).

Inductive hf_model : Type :=
| ModelNew (cls : pyobj) (config : hf_config)
| ModelFromPretrained (cls : pyobj) (name : string).

Definition model_class (m : hf_model) : pyobj :=
  match m with
  | ModelNew cls _ => cls
  | ModelFromPretrained cls _ => cls
  end.

(** [model.config] *)
Definition model_config (m : hf_model) : hf_config :=
  match m with
  | ModelNew _ c => c
  | ModelFromPretrained cls name => ConfigOfPretrained cls name
  end.

(** The attributes [__init__] leaves on [self]: the registered
    sub-modules ([add_module]), each with the device it was moved to,
    [config] and [_hidden_size]. *)
Record instance : Type := {
  _modules : gmap string (hf_model * string);
  config : hf_config;
  _hidden_size : Z
}.

Definition the_ValueError_of_the_check : exn :=
  ValueError ("Only one of pretrained_model_name, vocab_size, "
              ++ "or config_filename should be passed into the "
              ++ "BERT constructor.")%string.

Definition the_ValueError_of_the_else : exn :=
  ValueError ("Either pretrained_model_name or vocab_size must"
              ++ " be passed into the BERT constructor")%string.

Section Init.

(** The module's global namespace at the time of the call, the device
    [super().__init__()] left in [self._device], and what
    [config.hidden_size] answers. *)
Variable G : gmap string pyobj.
Variable _device : string.
Variable config_hidden_size : hf_config -> Z.

(** [total], lines 121-127. *)
Definition total (a : init_args) : Z :=
  let total := 0 in
  let total := if is_not_None (pretrained_model_name a) then total + 1 else total in
  let total := if is_not_None (config_filename a) then total + 1 else total in
  let total := if is_not_None (vocab_size a) then total + 1 else total in
  total.

(** Lines 137-157: the branch that builds [model]. *)
Definition build_model (a : init_args) : result hf_model :=
  match vocab_size a with
  | Some vs =>
      (BertConfig ← load_global G "BertConfig";
       let config := ConfigNew BertConfig {|
         kw_vocab_size_or_config_json_file := vs;
         kw_vocab_size := vs;
         kw_hidden_size := hidden_size a;
         kw_num_hidden_layers := num_hidden_layers a;
         kw_num_attention_heads := num_attention_heads a;
         kw_intermediate_size := intermediate_size a;
         kw_hidden_act := hidden_act a;
         kw_max_position_embeddings := max_position_embeddings a |} in
       BertModel ← load_global G "BertModel";
       Ok (ModelNew BertModel config))
  | None =>
      match pretrained_model_name a with
      | Some name =>
          (BertModel ← load_global G "BertModel";
           Ok (ModelFromPretrained BertModel name))
      | None =>
          match config_filename a with
          | Some file =>
              (BertConfig ← load_global G "BertConfig";
               let config := ConfigFromJsonFile BertConfig file in
               BertModel ← load_global G "BertModel";
               Ok (ModelNew BertModel config))
          | None => Raise the_ValueError_of_the_else
          end
      end
  end.

(** [GPT2.__init__], lines 117-163. *)
Definition __init__ (a : init_args) : result instance :=
  if negb (total a =? 1) then Raise the_ValueError_of_the_check
  else
    (model ← build_model a;
     Ok {| _modules := <["bert" := (model, _device)]> ∅;
           config := model_config model;
           _hidden_size := config_hidden_size (model_config model) |}).

End Init.

(** [GPT2.forward]: the tensor it returns is element 0 of what the
    registered module ["bert"] gives on the three inputs. *)
Inductive tensor (T : Type) : Type :=
| ModelOutput (m : hf_model) (input_ids token_type_ids attention_mask : T) (index : nat).

Arguments ModelOutput {T} m input_ids token_type_ids attention_mask index.

Definition forward {T : Type} (self : instance) (input_ids token_type_ids attention_mask : T)
  : result (tensor T) :=
  match _modules self !! "bert" with
  | Some (bert, _) => Ok (ModelOutput bert input_ids token_type_ids attention_mask 0%nat)
  | None => Raise (AttributeError "bert")
  end.

(** The number of non-None arguments among the three, as the claim counts them. *)
Definition supplied (a : init_args) : nat :=
  (if is_not_None (pretrained_model_name a) then 1 else 0)
  + (if is_not_None (config_filename a) then 1 else 0)
  + (if is_not_None (vocab_size a) then 1 else 0).

(** The namespace the module would have if the two Bert names were
    imported from transformers as well. *)
Definition globals_with_bert : gmap string pyobj :=
  <["BertModel" := Imported "transformers" "BertModel"]>
    (<["BertConfig" := Imported "transformers" "BertConfig"]> module_globals).

End GPT2nm.

(** ** joint_intent_slot_with_bert.py *)

Module JointIntentSlot.

(** The namespace [parser.parse_args()] returns.  A flag declared with
    [default=None] is [None] unless given on the command line. *)
Module args.
Record t : Type := {
  data_dir : string;
  work_dir : string;
  checkpoint_dir : option string;
  pretrained_model_name : string;
  bert_checkpoint : option string;
  bert_config : option string;
  vocab_file : option string;
  tokenizer : string;
  tokenizer_model : option string;
  train_file_prefix : string;
  eval_file_prefix : string;
  num_epochs : Z;
  batch_size : Z;
  max_seq_length : Z;
  num_gpus : Z;
  optimizer_kind : string;
  amp_opt_level : string;
  lr : float;
  lr_policy : string;
  lr_warmup_proportion : float;
  weight_decay : float;
  fc_dropout : float;
  intent_loss_weight : float;
  class_balancing : string;
  do_lower_case : bool;
  shuffle_data : bool;
  ignore_start_end : bool;
  ignore_extra_tokens : bool;
  none_slot_label : string;
  pad_label : Z;
  num_train_samples : Z;
  num_eval_samples : Z;
  save_epoch_freq : Z;
  save_step_freq : Z;
  local_rank : option Z
}.

(** The namespace of a command line without flags. *)
Definition defaults : t := {|
  data_dir := "data/atis";
  work_dir := "outputs";
  checkpoint_dir := None;
  pretrained_model_name := "bert-base-uncased";
  bert_checkpoint := None;
  bert_config := None;
  vocab_file := None;
  tokenizer := "nemobert";
  tokenizer_model := None;
  train_file_prefix := "train";
  eval_file_prefix := "test";
  num_epochs := 10;
  batch_size := 128;
  max_seq_length := 50;
  num_gpus := 1;
  optimizer_kind := "adam";
  amp_opt_level := "O0";
  lr := 2e-5%float;
  lr_policy := "WarmupAnnealing";
  lr_warmup_proportion := 0.1%float;
  weight_decay := 0.01%float;
  fc_dropout := 0.1%float;
  intent_loss_weight := 0.6%float;
  class_balancing := "regular";
  do_lower_case := false;
  shuffle_data := true;
  ignore_start_end := true;
  ignore_extra_tokens := true;
  none_slot_label := "O";
  pad_label := -1;
  num_train_samples := -1;
  num_eval_samples := -1;
  save_epoch_freq := 1;
  save_step_freq := -1;
  local_rank := None
|}.

(** The same command line with another [--num_gpus]. *)
Definition with_num_gpus (n : Z) (a : t) : t := {|
  data_dir := data_dir a; work_dir := work_dir a; checkpoint_dir := checkpoint_dir a;
  pretrained_model_name := pretrained_model_name a;
  bert_checkpoint := bert_checkpoint a; bert_config := bert_config a;
  vocab_file := vocab_file a; tokenizer := tokenizer a;
  tokenizer_model := tokenizer_model a;
  train_file_prefix := train_file_prefix a; eval_file_prefix := eval_file_prefix a;
  num_epochs := num_epochs a; batch_size := batch_size a;
  max_seq_length := max_seq_length a;
  num_gpus := n;
  optimizer_kind := optimizer_kind a; amp_opt_level := amp_opt_level a;
  lr := lr a; lr_policy := lr_policy a;
  lr_warmup_proportion := lr_warmup_proportion a; weight_decay := weight_decay a;
  fc_dropout := fc_dropout a; intent_loss_weight := intent_loss_weight a;
  class_balancing := class_balancing a; do_lower_case := do_lower_case a;
  shuffle_data := shuffle_data a;
  ignore_start_end := ignore_start_end a; ignore_extra_tokens := ignore_extra_tokens a;
  none_slot_label := none_slot_label a; pad_label := pad_label a;
  num_train_samples := num_train_samples a; num_eval_samples := num_eval_samples a;
  save_epoch_freq := save_epoch_freq a; save_step_freq := save_step_freq a;
  local_rank := local_rank a
|}.

(** The same command line with or without [--no_shuffle_data]. *)
Definition with_shuffle_data (b : bool) (a : t) : t := {|
  data_dir := data_dir a; work_dir := work_dir a; checkpoint_dir := checkpoint_dir a;
  pretrained_model_name := pretrained_model_name a;
  bert_checkpoint := bert_checkpoint a; bert_config := bert_config a;
  vocab_file := vocab_file a; tokenizer := tokenizer a;
  tokenizer_model := tokenizer_model a;
  train_file_prefix := train_file_prefix a; eval_file_prefix := eval_file_prefix a;
  num_epochs := num_epochs a; batch_size := batch_size a;
  max_seq_length := max_seq_length a;
  num_gpus := num_gpus a;
  optimizer_kind := optimizer_kind a; amp_opt_level := amp_opt_level a;
  lr := lr a; lr_policy := lr_policy a;
  lr_warmup_proportion := lr_warmup_proportion a; weight_decay := weight_decay a;
  fc_dropout := fc_dropout a; intent_loss_weight := intent_loss_weight a;
  class_balancing := class_balancing a; do_lower_case := do_lower_case a;
  shuffle_data := b;
  ignore_start_end := ignore_start_end a; ignore_extra_tokens := ignore_extra_tokens a;
  none_slot_label := none_slot_label a; pad_label := pad_label a;
  num_train_samples := num_train_samples a; num_eval_samples := num_eval_samples a;
  save_epoch_freq := save_epoch_freq a; save_step_freq := save_step_freq a;
  local_rank := local_rank a
|}.

End args.

(** *** Objects of the framework

    Each is the record of the keyword arguments its constructor was
    called with. *)

(** [nemo.core.NeuralModuleFactory(...)] *)
Record NeuralModuleFactory : Type := {
  nf_backend : string;
  nf_local_rank : option Z;
  nf_optimization_level : string;
  nf_log_dir : string;
  nf_checkpoint_dir : option string;
  nf_create_tb_writer : bool;
  nf_files_to_copy : list string;
  nf_add_time_to_log_dir : bool
}.

(** The encoder: [MegatronBERT(...)] or what [get_huggingface_model(...)]
    returns, and the checkpoints [restore_from] loaded into it. *)
Inductive encoder_source : Type :=
| MegatronBERT (config_file vocab_file : option string)
| get_huggingface_model (bert_config : option string) (pretrained_model_name : string).

Record encoder : Type := {
  enc_source : encoder_source;
  enc_restored_from : list (option string)
}.

(** [get_tokenizer(...)] *)
Record get_tokenizer : Type := {
  tk_tokenizer_name : string;
  tk_pretrained_model_name : string;
  tk_tokenizer_model : option string;
  tk_vocab_file : option string;
  tk_do_lower_case : bool
}.

(** The attributes the script reads from the [JointIntentSlotDataDesc]. *)
Module JointIntentSlotDataDesc.
Record t : Type := {
  data_dir : string;
  pad_label : Z;
  num_intents : Z;
  num_slots : Z;
  intent_weights : list float;
  slot_weights : list float;
  intents_label_ids : gmap string Z;
  slots_label_ids : gmap string Z
}.
End JointIntentSlotDataDesc.

Record JointIntentSlotClassifier : Type := {
  cl_hidden_size : Z;
  cl_num_intents : Z;
  cl_num_slots : Z;
  cl_dropout : float
}.

Record CrossEntropyLossNM : Type := {
  ce_logits_ndim : Z;
  ce_weight : option (list float)
}.

Record LossAggregatorNM : Type := {
  la_num_inputs : Z;
  la_weights : list float
}.

Record BertJointIntentSlotDataLayer : Type := {
  dl_input_file : string;
  dl_slot_file : string;
  dl_pad_label : Z;
  dl_tokenizer : get_tokenizer;
  dl_max_seq_length : Z;
  dl_num_samples : Z;
  dl_shuffle : bool;
  dl_batch_size : Z;
  dl_ignore_extra_tokens : bool;
  dl_ignore_start_end : bool;
  dl_do_lower_case : bool
}.

(** *** The computation graph

    Calling a neural module yields symbolic tensors; each knows the
    module that produced it, the tensors that were passed to that call
    under which keyword, and which of the call's outputs it is. *)
Inductive neural_module : Type :=
| NM_data_layer (m : BertJointIntentSlotDataLayer)
| NM_encoder (m : encoder)
| NM_classifier (m : JointIntentSlotClassifier)
| NM_cross_entropy (m : CrossEntropyLossNM)
| NM_loss_aggregator (m : LossAggregatorNM).

Inductive port : Type :=
| Whole
| Item (i : nat)
| Attr (name : string).

Inductive NmTensor : Type :=
| Output (producer : neural_module) (inputs : list (string * NmTensor)) (p : port).

Definition producer (x : NmTensor) : neural_module :=
  match x with Output m _ _ => m end.

Definition inputs (x : NmTensor) : list (string * NmTensor) :=
  match x with Output _ i _ => i end.

Definition out_port (x : NmTensor) : port :=
  match x with Output _ _ p => p end.

(** [y = m(k1=x1, ...)] for a module with one output. *)
Definition call (m : neural_module) (kwargs : list (string * NmTensor)) : NmTensor :=
  Output m kwargs Whole.

(** [y0, y1 = m(k1=x1, ...)] *)
Definition call2 (m : neural_module) (kwargs : list (string * NmTensor))
  : NmTensor * NmTensor :=
  (Output m kwargs (Item 0), Output m kwargs (Item 1)).

(** [m().name] for a data layer, whose call takes no input. *)
Definition field (input_data : neural_module) (name : string) : NmTensor :=
  Output input_data [] (Attr name).

(** *** Callbacks, learning-rate policy and the training call *)

Inductive pyvalue : Type :=
| PyInt (n : Z)
| PyFloat (x : float).

Record SimpleLossLoggerCallback : Type := {
  sl_tensors : list NmTensor;
  sl_tb_writer : NeuralModuleFactory;
  sl_step_freq : Z
}.

Record EvaluatorCallback : Type := {
  ev_eval_tensors : list NmTensor;
  ev_intents_label_ids : gmap string Z;
  ev_slots_label_ids : gmap string Z;
  ev_graph_fold : string;
  ev_normalize_cm : bool;
  ev_tb_writer : NeuralModuleFactory;
  ev_eval_step : Z
}.

Record CheckpointCallback : Type := {
  ck_folder : string;
  ck_epoch_freq : Z;
  ck_step_freq : Z
}.

Inductive callback : Type :=
| CB_train (c : SimpleLossLoggerCallback)
| CB_eval (c : EvaluatorCallback)
| CB_ckpt (c : CheckpointCallback).

Record get_lr_policy : Type := {
  lrp_name : string;
  lrp_total_steps : Z;
  lrp_warmup_ratio : float
}.

(** The keyword arguments of [nf.train(...)]. *)
Record train_call : Type := {
  tr_tensors_to_optimize : list NmTensor;
  tr_callbacks : list callback;
  tr_lr_policy : get_lr_policy;
  tr_optimizer : string;
  tr_optimization_params : gmap string pyvalue
}.

(** *** The world outside the script

    What the file system and the framework answer when the script asks. *)
Record world : Type := {
  (** [os.path.exists] *)
  path_exists : string -> bool;
  (** [__file__] *)
  __file__ : string;
  (** [model.hidden_size] *)
  hidden_size : encoder -> Z;
  (** the attributes of [JointIntentSlotDataDesc(data_dir, none_slot_label, pad_label)] *)
  describe : string -> string -> Z -> JointIntentSlotDataDesc.t;
  (** [len(data_layer)], never negative *)
  len : BertJointIntentSlotDataLayer -> N;
  (** [nf.work_dir] and [nf.checkpoint_dir] *)
  nf_work_dir : NeuralModuleFactory -> string;
  nf_checkpoint_dir_attr : NeuralModuleFactory -> string
}.

(** *** Effects

    The script's visible effects, in the order they happen: the objects
    it asks the framework to build, what it logs, and the training call. *)
Inductive fragment : Type :=
| Text (s : string)
| Value (s : option string)
| Int (n : Z).

Inductive event : Type :=
| New_NeuralModuleFactory (nf : NeuralModuleFactory)
| New_encoder (src : encoder_source)
| New_tokenizer (tk : get_tokenizer)
| Restore_from (checkpoint : option string)
| New_data_desc (data_dir none_slot_label : string) (pad_label : Z)
| New_classifier (c : JointIntentSlotClassifier)
| New_cross_entropy (l : CrossEntropyLossNM)
| New_loss_aggregator (l : LossAggregatorNM)
| New_data_layer (dl : BertJointIntentSlotDataLayer)
| Logging (level : string) (message : list fragment)
| New_callback (cb : callback)
| New_lr_policy (p : get_lr_policy)
| Train (c : train_call).

Definition trace : Type := list event.

(** A step of the script: it extends the trace, then returns or raises. *)
Definition M (A : Type) : Type := trace -> trace * result A.

#[global] Instance M_ret : MRet M := fun A x t => (t, Ok x).

#[global] Instance M_bind : MBind M := fun A B k m t =>
  match m t with
  | (t', Ok x) => k x t'
  | (t', Raise e) => (t', Raise e)
  end.

Definition raise {A : Type} (e : exn) : M A := fun t => (t, Raise e).

Definition emit (e : event) : M unit := fun t => (t ++ [e], Ok tt).

Definition logging_info (message : list fragment) : M unit :=
  emit (Logging "info" message).

Definition logging_warning (message : list fragment) : M unit :=
  emit (Logging "warning" message).

(** [x and y] on optional strings. *)
Definition py_and (x y : option string) : option string :=
  if truthy x then y else x.

(** [math.ceil(a / b)] on integers: [ZeroDivisionError] when [b] is 0,
    otherwise the ceiling of the quotient.  The quotient is taken exactly;
    the double that [a / b] computes has the same ceiling as long as
    [a] and [b] are below 2^53 in absolute value. *)
Definition ceil_div (a b : Z) : result Z :=
  if b =? 0 then Raise ZeroDivisionError else Ok (- ((- a) / b)).

Definition pipeline : Type :=
  list NmTensor * NmTensor * Z * BertJointIntentSlotDataLayer.

(** The module-level names [create_pipeline] reads. *)
Record globals : Type := {
  nf : NeuralModuleFactory;
  model : encoder;
  tokenizer : get_tokenizer;
  data_desc : JointIntentSlotDataDesc.t;
  classifier : JointIntentSlotClassifier;
  intent_loss_fn : CrossEntropyLossNM;
  slot_loss_fn : CrossEntropyLossNM;
  total_loss_fn : LossAggregatorNM
}.

Section Script.

Variable w : world.
Variable a : args.t.

(** Lines 108-109. *)
Definition check_data_dir : M unit :=
  if negb (path_exists w (args.data_dir a))
  then raise (ValueError ("Data not found at " ++ args.data_dir a))
  else mret tt.

(** Lines 111-120. *)
Definition make_nf : M NeuralModuleFactory :=
  let nf := {|
    nf_backend := "PyTorch";
    nf_local_rank := args.local_rank a;
    nf_optimization_level := args.amp_opt_level a;
    nf_log_dir := args.work_dir a;
    nf_checkpoint_dir := args.checkpoint_dir a;
    nf_create_tb_writer := true;
    nf_files_to_copy := [__file__ w];
    nf_add_time_to_log_dir := true |} in
  _ ← emit (New_NeuralModuleFactory nf);
  mret nf.

(** Lines 122-129. *)
Definition select_model : M encoder :=
  if String.eqb (args.pretrained_model_name a) "megatron" then
    if negb (truthy (py_and (py_and (args.bert_config a) (args.bert_checkpoint a))
                            (args.vocab_file a)))
    then raise (FileNotFoundError
      "Config file, checkpoint and vocabulary file should be provided for Megatron models.")
    else
      let src := MegatronBERT (args.bert_config a) (args.vocab_file a) in
      _ ← emit (New_encoder src);
      mret {| enc_source := src; enc_restored_from := [] |}
  else
    let src := get_huggingface_model (args.bert_config a) (args.pretrained_model_name a) in
    _ ← emit (New_encoder src);
    mret {| enc_source := src; enc_restored_from := [] |}.

(** Lines 131-137. *)
Definition make_tokenizer : M get_tokenizer :=
  let tk := {|
    tk_tokenizer_name := args.tokenizer a;
    tk_pretrained_model_name := args.pretrained_model_name a;
    tk_tokenizer_model := args.tokenizer_model a;
    tk_vocab_file := args.vocab_file a;
    tk_do_lower_case := String.eqb (args.pretrained_model_name a) "megatron" |} in
  _ ← emit (New_tokenizer tk);
  mret tk.

(** Lines 139-141: [model.restore_from] changes the model in place. *)
Definition restore (model : encoder) : M encoder :=
  if truthy (args.bert_checkpoint a) then
    _ ← emit (Restore_from (args.bert_checkpoint a));
    _ ← logging_info [Text "Model restored from "; Value (args.bert_checkpoint a)];
    mret {| enc_source := enc_source model;
            enc_restored_from := enc_restored_from model ++ [args.bert_checkpoint a] |}
  else mret model.

(** Lines 145-147. *)
Definition make_data_desc : M JointIntentSlotDataDesc.t :=
  _ ← emit (New_data_desc (args.data_dir a) (args.none_slot_label a) (args.pad_label a));
  mret (describe w (args.data_dir a) (args.none_slot_label a) (args.pad_label a)).

(** Lines 150-152. *)
Definition make_classifier (hidden_size : Z) (data_desc : JointIntentSlotDataDesc.t)
  : M JointIntentSlotClassifier :=
  let c := {|
    cl_hidden_size := hidden_size;
    cl_num_intents := JointIntentSlotDataDesc.num_intents data_desc;
    cl_num_slots := JointIntentSlotDataDesc.num_slots data_desc;
    cl_dropout := args.fc_dropout a |} in
  _ ← emit (New_classifier c);
  mret c.

Definition make_cross_entropy (l : CrossEntropyLossNM) : M CrossEntropyLossNM :=
  _ ← emit (New_cross_entropy l);
  mret l.

(** Lines 154-160. *)
Definition make_losses (data_desc : JointIntentSlotDataDesc.t)
  : M (CrossEntropyLossNM * CrossEntropyLossNM) :=
  if String.eqb (args.class_balancing a) "weighted_loss" then
    intent_loss_fn ← make_cross_entropy {|
      ce_logits_ndim := 2;
      ce_weight := Some (JointIntentSlotDataDesc.intent_weights data_desc) |};
    slot_loss_fn ← make_cross_entropy {|
      ce_logits_ndim := 3;
      ce_weight := Some (JointIntentSlotDataDesc.slot_weights data_desc) |};
    mret (intent_loss_fn, slot_loss_fn)
  else
    intent_loss_fn ← make_cross_entropy {| ce_logits_ndim := 2; ce_weight := None |};
    slot_loss_fn ← make_cross_entropy {| ce_logits_ndim := 3; ce_weight := None |};
    mret (intent_loss_fn, slot_loss_fn).

(** The list [[args.intent_loss_weight, 1.0 - args.intent_loss_weight]] of line 162. *)
Definition loss_weights : list float :=
  [args.intent_loss_weight a; (1 - args.intent_loss_weight a)%float].

(** Line 162. *)
Definition make_total_loss_fn : M LossAggregatorNM :=
  let l := {| la_num_inputs := 2; la_weights := loss_weights |} in
  _ ← emit (New_loss_aggregator l);
  mret l.

(** Lines 108-162: everything before [create_pipeline] is defined. *)
Definition setup : M globals :=
  _ ← check_data_dir;
  nf ← make_nf;
  model ← select_model;
  tokenizer ← make_tokenizer;
  model ← restore model;
  let hidden_size := hidden_size w model in
  data_desc ← make_data_desc;
  classifier ← make_classifier hidden_size data_desc;
  '(intent_loss_fn, slot_loss_fn) ← make_losses data_desc;
  total_loss_fn ← make_total_loss_fn;
  mret {| nf := nf; model := model; tokenizer := tokenizer; data_desc := data_desc;
          classifier := classifier; intent_loss_fn := intent_loss_fn;
          slot_loss_fn := slot_loss_fn; total_loss_fn := total_loss_fn |}.

(** Lines 167-183: the data layer [create_pipeline] asks for. *)
Definition new_data_layer (g : globals) (num_samples batch_size : Z) (data_prefix : string)
    (is_training : bool) : BertJointIntentSlotDataLayer :=
  let data_file :=
    (JointIntentSlotDataDesc.data_dir (data_desc g) ++ "/" ++ data_prefix ++ ".tsv")%string in
  let slot_file :=
    (JointIntentSlotDataDesc.data_dir (data_desc g) ++ "/" ++ data_prefix ++ "_slots.tsv")%string in
  let shuffle := if is_training then args.shuffle_data a else false in
  {| dl_input_file := data_file;
     dl_slot_file := slot_file;
     dl_pad_label := JointIntentSlotDataDesc.pad_label (data_desc g);
     dl_tokenizer := tokenizer g;
     dl_max_seq_length := args.max_seq_length a;
     dl_num_samples := num_samples;
     dl_shuffle := shuffle;
     dl_batch_size := batch_size;
     dl_ignore_extra_tokens := args.ignore_extra_tokens a;
     dl_ignore_start_end := args.ignore_start_end a;
     dl_do_lower_case := args.do_lower_case a |}.

(** Lines 198-217: the graph [create_pipeline] wires on the outputs of
    the data layer, and the tensors it hands out. *)
Definition graph (g : globals) (input_data : neural_module) (is_training : bool)
  : list NmTensor * NmTensor :=
  let hidden_states :=
    call (NM_encoder (model g))
      [("input_ids", field input_data "input_ids");
       ("token_type_ids", field input_data "input_type_ids");
       ("attention_mask", field input_data "input_mask")] in
  let '(intent_logits, slot_logits) :=
    call2 (NM_classifier (classifier g)) [("hidden_states", hidden_states)] in
  let intent_loss :=
    call (NM_cross_entropy (intent_loss_fn g))
      [("logits", intent_logits); ("labels", field input_data "intents")] in
  let slot_loss :=
    call (NM_cross_entropy (slot_loss_fn g))
      [("logits", slot_logits); ("labels", field input_data "slots");
       ("loss_mask", field input_data "loss_mask")] in
  let total_loss :=
    call (NM_loss_aggregator (total_loss_fn g))
      [("loss_1", intent_loss); ("loss_2", slot_loss)] in
  let tensors_to_evaluate :=
    if is_training then [total_loss; intent_loss; slot_loss]
    else [intent_logits; slot_logits; field input_data "intents";
          field input_data "slots"; field input_data "subtokens_mask"] in
  (tensors_to_evaluate, total_loss).

(** [create_pipeline], lines 165-219. *)
Definition create_pipeline (g : globals) (num_samples batch_size : Z) (data_prefix : string)
    (is_training : bool) (num_gpus : Z) : M pipeline :=
  _ ← logging_info [Text "Loading "; Text data_prefix; Text " data..."];
  let data_layer := new_data_layer g num_samples batch_size data_prefix is_training in
  _ ← emit (New_data_layer data_layer);
  let input_data := NM_data_layer data_layer in
  let data_size := Z.of_N (len w data_layer) in
  _ ← logging_info [Text "The length of data layer is "; Int data_size];
  batch_size ←
    (if data_size <? batch_size then
       _ ← logging_warning [Text "Batch_size is larger than the dataset size"];
       _ ← logging_warning [Text "Reducing batch_size to dataset size"];
       mret data_size
     else mret batch_size);
  steps_per_epoch ← (fun t => (t, ceil_div data_size (batch_size * num_gpus)));
  _ ← logging_info [Text "Steps_per_epoch = "; Int steps_per_epoch];
  let '(tensors_to_evaluate, total_loss) := graph g input_data is_training in
  mret (tensors_to_evaluate, total_loss, steps_per_epoch, data_layer).

(** Lines 222-228. *)
Definition train_pipeline (g : globals) : M pipeline :=
  create_pipeline g (args.num_train_samples a) (args.batch_size a)
    (args.train_file_prefix a) true (args.num_gpus a).

(** Lines 229-235. *)
Definition eval_pipeline (g : globals) : M pipeline :=
  create_pipeline g (args.num_eval_samples a) (args.batch_size a)
    (args.eval_file_prefix a) false (args.num_gpus a).

(** The keyword arguments of the [nf.train] call of lines 273-279, with
    the callbacks and the policy of lines 238-271. *)
Definition train_callback (g : globals) (train_tensors : list NmTensor)
    (train_steps_per_epoch : Z) : SimpleLossLoggerCallback := {|
  sl_tensors := train_tensors;
  sl_tb_writer := nf g;
  sl_step_freq := train_steps_per_epoch |}.

Definition eval_callback (g : globals) (eval_tensors : list NmTensor)
    (train_steps_per_epoch : Z) : EvaluatorCallback := {|
  ev_eval_tensors := eval_tensors;
  ev_intents_label_ids := JointIntentSlotDataDesc.intents_label_ids (data_desc g);
  ev_slots_label_ids := JointIntentSlotDataDesc.slots_label_ids (data_desc g);
  ev_graph_fold := (nf_work_dir w (nf g) ++ "/graphs")%string;
  ev_normalize_cm := true;
  ev_tb_writer := nf g;
  ev_eval_step := train_steps_per_epoch |}.

Definition ckpt_callback (g : globals) : CheckpointCallback := {|
  ck_folder := nf_checkpoint_dir_attr w (nf g);
  ck_epoch_freq := args.save_epoch_freq a;
  ck_step_freq := args.save_step_freq a |}.

Definition lr_policy_fn (train_steps_per_epoch : Z) : get_lr_policy := {|
  lrp_name := args.lr_policy a;
  lrp_total_steps := args.num_epochs a * train_steps_per_epoch;
  lrp_warmup_ratio := args.lr_warmup_proportion a |}.

Definition nf_train (train_loss : NmTensor) (callbacks : list callback)
    (lr_policy : get_lr_policy) : train_call := {|
  tr_tensors_to_optimize := [train_loss];
  tr_callbacks := callbacks;
  tr_lr_policy := lr_policy;
  tr_optimizer := args.optimizer_kind a;
  tr_optimization_params :=
    <["num_epochs" := PyInt (args.num_epochs a)]>
      (<["lr" := PyFloat (args.lr a)]>
         (<["weight_decay" := PyFloat (args.weight_decay a)]> ∅)) |}.

(** Lines 238-279. *)
Definition train (g : globals) (train_tensors : list NmTensor) (train_loss : NmTensor)
    (train_steps_per_epoch : Z) (eval_tensors : list NmTensor) : M unit :=
  let train_callback := CB_train (train_callback g train_tensors train_steps_per_epoch) in
  _ ← emit (New_callback train_callback);
  let eval_callback := CB_eval (eval_callback g eval_tensors train_steps_per_epoch) in
  _ ← emit (New_callback eval_callback);
  let ckpt_callback := CB_ckpt (ckpt_callback g) in
  _ ← emit (New_callback ckpt_callback);
  let lr_policy_fn := lr_policy_fn train_steps_per_epoch in
  _ ← emit (New_lr_policy lr_policy_fn);
  emit (Train (nf_train train_loss [train_callback; eval_callback; ckpt_callback] lr_policy_fn)).

(** The script, from line 108 to the end. *)
Definition script : M unit :=
  g ← setup;
  '(train_tensors, train_loss, train_steps_per_epoch, _) ← train_pipeline g;
  '(eval_tensors, _, _, eval_data_layer) ← eval_pipeline g;
  train g train_tensors train_loss train_steps_per_epoch eval_tensors.

End Script.

(** The batch size line 195 divides by: lines 190-193 lower it to the
    size of the data. *)
Definition effective_batch_size (data_size batch_size : Z) : Z :=
  if data_size <? batch_size then data_size else batch_size.

(** When lines 122-129 return a model: any name but megatron, or megatron
    with a configuration file, a checkpoint and a vocabulary file. *)
Definition model_args_complete (a : args.t) : bool :=
  negb (String.eqb (args.pretrained_model_name a) "megatron")
  || (truthy (args.bert_config a) && truthy (args.bert_checkpoint a)
      && truthy (args.vocab_file a)).

(** [x] is one of the tensors passed to the call that produced [y]. *)
Definition feeds (x y : NmTensor) : Prop := In x (map snd (inputs y)).

(** The wiring data layer, encoder, classifier, losses, aggregator, said
    of a total loss: which module produced each tensor, and from which
    tensors under which keyword. *)
Definition wired (g : globals) (data_layer : BertJointIntentSlotDataLayer)
    (total_loss : NmTensor) : Prop :=
  let out := field (NM_data_layer data_layer) in
  exists hidden_states intent_logits slot_logits intent_loss slot_loss : NmTensor,
    (producer hidden_states = NM_encoder (model g)
     /\ inputs hidden_states =
          [("input_ids", out "input_ids"); ("token_type_ids", out "input_type_ids");
           ("attention_mask", out "input_mask")])
    /\ (producer intent_logits = NM_classifier (classifier g)
        /\ out_port intent_logits = Item 0
        /\ inputs intent_logits = [("hidden_states", hidden_states)])
    /\ (producer slot_logits = NM_classifier (classifier g)
        /\ out_port slot_logits = Item 1
        /\ inputs slot_logits = [("hidden_states", hidden_states)])
    /\ (producer intent_loss = NM_cross_entropy (intent_loss_fn g)
        /\ inputs intent_loss = [("logits", intent_logits); ("labels", out "intents")])
    /\ (producer slot_loss = NM_cross_entropy (slot_loss_fn g)
        /\ inputs slot_loss =
             [("logits", slot_logits); ("labels", out "slots");
              ("loss_mask", out "loss_mask")])
    /\ (producer total_loss = NM_loss_aggregator (total_loss_fn g)
        /\ inputs total_loss = [("loss_1", intent_loss); ("loss_2", slot_loss)])
    /\ (feeds (out "input_ids") hidden_states
        /\ feeds hidden_states intent_logits /\ feeds hidden_states slot_logits
        /\ feeds intent_logits intent_loss /\ feeds slot_logits slot_loss
        /\ feeds intent_loss total_loss /\ feeds slot_loss total_loss).

(** The [train_steps_per_epoch] of line 222, when the script gets there. *)
Definition train_steps_per_epoch (w : world) (a : args.t) : option Z :=
  match (g ← setup w a; train_pipeline w a g) [] with
  | (_, Ok (_, _, steps_per_epoch, _)) => Some steps_per_epoch
  | (_, Raise _) => None
  end.

(** A run starts with nothing built. *)
Definition run (w : world) (a : args.t) : trace * result unit := script w a [].

(** The training calls of a trace. *)
Definition train_calls (t : trace) : list train_call :=
  omap (fun e => match e with Train c => Some c | _ => None end) t.


(** A command line for a Megatron model with its three files. *)
Definition megatron_args : args.t := {|
  args.data_dir := "data/atis";
  args.work_dir := "outputs";
  args.checkpoint_dir := None;
  args.pretrained_model_name := "megatron";
  args.bert_checkpoint := Some "megatron.pt";
  args.bert_config := Some "megatron.json";
  args.vocab_file := Some "vocab.txt";
  args.tokenizer := "nemobert";
  args.tokenizer_model := None;
  args.train_file_prefix := "train";
  args.eval_file_prefix := "test";
  args.num_epochs := 10;
  args.batch_size := 128;
  args.max_seq_length := 50;
  args.num_gpus := 1;
  args.optimizer_kind := "adam";
  args.amp_opt_level := "O0";
  args.lr := 2e-5%float;
  args.lr_policy := "WarmupAnnealing";
  args.lr_warmup_proportion := 0.1%float;
  args.weight_decay := 0.01%float;
  args.fc_dropout := 0.1%float;
  args.intent_loss_weight := 0.6%float;
  args.class_balancing := "regular";
  args.do_lower_case := false;
  args.shuffle_data := true;
  args.ignore_start_end := true;
  args.ignore_extra_tokens := true;
  args.none_slot_label := "O";
  args.pad_label := -1;
  args.num_train_samples := -1;
  args.num_eval_samples := -1;
  args.save_epoch_freq := 1;
  args.save_step_freq := -1;
  args.local_rank := None
|}.



(** The encoders a trace builds. *)
Definition encoders (t : trace) : list encoder_source :=
  omap (fun e => match e with New_encoder src => Some src | _ => None end) t.

(** The data layers a trace builds. *)
Definition data_layers (t : trace) : list BertJointIntentSlotDataLayer :=
  omap (fun e => match e with New_data_layer d => Some d | _ => None end) t.

(** A world for examples: every path exists, every data layer holds
    [n] examples. *)
Definition sample_world (n : N) : world := {|
  path_exists := fun _ => true;
  __file__ := "joint_intent_slot_with_bert.py";
  hidden_size := fun _ => 768;
  describe := fun d _ p => {|
    JointIntentSlotDataDesc.data_dir := d;
    JointIntentSlotDataDesc.pad_label := p;
    JointIntentSlotDataDesc.num_intents := 26;
    JointIntentSlotDataDesc.num_slots := 129;
    JointIntentSlotDataDesc.intent_weights := [];
    JointIntentSlotDataDesc.slot_weights := [];
    JointIntentSlotDataDesc.intents_label_ids := ∅;
    JointIntentSlotDataDesc.slots_label_ids := ∅ |};
  len := fun _ => n;
  nf_work_dir := fun nf => nf_log_dir nf;
  nf_checkpoint_dir_attr := fun nf => (nf_log_dir nf ++ "/checkpoints")%string
|}.

(** The module-level names after [setup] on a command line without
    flags, in [sample_world]. *)
Definition sample_globals : globals :=
  let tk := {|
    tk_tokenizer_name := "nemobert";
    tk_pretrained_model_name := "bert-base-uncased";
    tk_tokenizer_model := None;
    tk_vocab_file := None;
    tk_do_lower_case := false |} in
  {| nf := {|
       nf_backend := "PyTorch";
       nf_local_rank := None;
       nf_optimization_level := "O0";
       nf_log_dir := "outputs";
       nf_checkpoint_dir := None;
       nf_create_tb_writer := true;
       nf_files_to_copy := ["joint_intent_slot_with_bert.py"];
       nf_add_time_to_log_dir := true |};
     model := {|
       enc_source := get_huggingface_model None "bert-base-uncased";
       enc_restored_from := [] |};
     tokenizer := tk;
     data_desc := describe (sample_world 0) "data/atis" "O" (-1);
     classifier := {|
       cl_hidden_size := 768;
       cl_num_intents := 26;
       cl_num_slots := 129;
       cl_dropout := 0.1%float |};
     intent_loss_fn := {| ce_logits_ndim := 2; ce_weight := None |};
     slot_loss_fn := {| ce_logits_ndim := 3; ce_weight := None |};
     total_loss_fn := {| la_num_inputs := 2; la_weights := [0.6%float; 0.4%float] |} |}.

(** A world in which no path exists. *)
Definition bare_world : world := {|
  path_exists := fun _ => false;
  __file__ := __file__ (sample_world 0);
  hidden_size := hidden_size (sample_world 0);
  describe := describe (sample_world 0);
  len := len (sample_world 0);
  nf_work_dir := nf_work_dir (sample_world 0);
  nf_checkpoint_dir_attr := nf_checkpoint_dir_attr (sample_world 0)
|}.

End JointIntentSlot.

(** ** gpt2_nm.py: ports, [hidden_size], [list_pretrained_models] *)

Module GPT2rest.
Import GPT2nm.

(** [NeuralType(axes, elements_type)], with the objects the names
    [NeuralType] and [ChannelType] were bound to. *)
Record NeuralType : Type := {
  nt_class : pyobj;
  axes : list string;
  elements_type : pyobj
}.

(** The parameters of [forward] after [self], line 188. *)
Definition forward_parameters : list string :=
  ["input_ids"; "token_type_ids"; "attention_mask"]%string.

(** One entry of a port dictionary: the names [NeuralType] and
    [ChannelType] are evaluated, in this order. *)
Definition port_type (G : gmap string pyobj) (axes : list string) : result NeuralType :=
  nt ← load_global G "NeuralType";
  ct ← load_global G "ChannelType";
  Ok {| nt_class := nt; axes := axes; elements_type := ct |}.

(** The property [input_ports], lines 85-89. *)
Definition input_ports (G : gmap string pyobj) : result (gmap string NeuralType) :=
  input_ids ← port_type G ["B"; "T"]%string;
  token_type_ids ← port_type G ["B"; "T"]%string;
  attention_mask ← port_type G ["B"; "T"]%string;
  Ok (<["attention_mask" := attention_mask]>
        (<["token_type_ids" := token_type_ids]>
           (<["input_ids" := input_ids]> ∅))).

(** The property [output_ports], line 97. *)
Definition output_ports (G : gmap string pyobj) : result (gmap string NeuralType) :=
  hidden_states ← port_type G ["B"; "T"; "D"]%string;
  Ok (<["hidden_states" := hidden_states]> ∅).

(** The property [hidden_size], lines 165-173. *)
Definition hidden_size (self : instance) : Z := _hidden_size self.

(** [PretrainedModelInfo(...)] *)
Module PretrainedModelInfo.
Record t : Type := {
  cls : pyobj;
  pretrained_model_name : string;
  description : string;
  parameters : string;
  location : string
}.
End PretrainedModelInfo.

Section ListPretrained.

(** The module's globals, what [m.items()] yields for the object a name
    is bound to, and what [m[key]] gives. *)
Variable G : gmap string pyobj.
Variable items : pyobj -> result (list (string * string)).
Variable getitem : pyobj -> string -> result string.

(** The body of the loop of lines 178-185, over the items that are left. *)
Fixpoint list_loop (todo : list (string * string))
    (pretrained_models : list PretrainedModelInfo.t)
  : result (list PretrainedModelInfo.t) :=
  match todo with
  | [] => Ok pretrained_models
  | (key, value) :: todo =>
      info ← load_global G "PretrainedModelInfo";
      config_map ← load_global G "BERT_PRETRAINED_CONFIG_ARCHIVE_MAP";
      parameters ← getitem config_map key;
      let model_info := {|
        PretrainedModelInfo.cls := info;
        PretrainedModelInfo.pretrained_model_name := key;
        PretrainedModelInfo.description := "weights by HuggingFace";
        PretrainedModelInfo.parameters := parameters;
        PretrainedModelInfo.location := value |} in
      list_loop todo (pretrained_models ++ [model_info])
  end.

(** [GPT2.list_pretrained_models], lines 175-186. *)
Definition list_pretrained_models : result (list PretrainedModelInfo.t) :=
  let pretrained_models := [] in
  archive_map ← load_global G "BERT_PRETRAINED_MODEL_ARCHIVE_MAP";
  todo ← items archive_map;
  list_loop todo pretrained_models.

(** What one entry of the result says about the item it was made from. *)
Definition entry_of (config_map : pyobj) (info : PretrainedModelInfo.t)
    (item : string * string) : Prop :=
  PretrainedModelInfo.pretrained_model_name info = fst item
  /\ PretrainedModelInfo.location info = snd item
  /\ PretrainedModelInfo.description info = "weights by HuggingFace"%string
  /\ getitem config_map (fst item) = Ok (PretrainedModelInfo.parameters info).

End ListPretrained.

(** Two calls of the constructor agree on every argument it reads: the
    three alternatives, and the six sizes of lines 139-146 when
    [vocab_size] is given. *)
Definition same_read_arguments (a b : init_args) : Prop :=
  pretrained_model_name a = pretrained_model_name b
  /\ config_filename a = config_filename b
  /\ vocab_size a = vocab_size b
  /\ (vocab_size a <> None ->
      GPT2nm.hidden_size a = GPT2nm.hidden_size b
      /\ num_hidden_layers a = num_hidden_layers b
      /\ num_attention_heads a = num_attention_heads b
      /\ intermediate_size a = intermediate_size b
      /\ hidden_act a = hidden_act b
      /\ max_position_embeddings a = max_position_embeddings b).

(** A call that gives a vocabulary size and changes the five arguments
    the constructor never reads. *)
Definition call_with_dropouts (v : Z) (dropout : float) (types : Z) : init_args := {|
  pretrained_model_name := None;
  config_filename := None;
  vocab_size := Some v;
  GPT2nm.hidden_size := 768;
  num_hidden_layers := 12;
  num_attention_heads := 12;
  intermediate_size := 3072;
  hidden_act := "gelu";
  max_position_embeddings := 512;
  hidden_dropout_prob := dropout;
  attention_probs_dropout_prob := dropout;
  type_vocab_size := types;
  initializer_range := dropout;
  layer_norm_eps := dropout
|}.

(** A module namespace in which the two archive maps are bound too. *)
Definition globals_with_maps : gmap string pyobj :=
  <["BERT_PRETRAINED_MODEL_ARCHIVE_MAP" :=
      Imported "transformers" "BERT_PRETRAINED_MODEL_ARCHIVE_MAP"]>
    (<["BERT_PRETRAINED_CONFIG_ARCHIVE_MAP" :=
         Imported "transformers" "BERT_PRETRAINED_CONFIG_ARCHIVE_MAP"]> module_globals).

(** Two maps with two models, for examples. *)
Definition sample_items (m : pyobj) : result (list (string * string)) :=
  match m with
  | Imported _ "BERT_PRETRAINED_MODEL_ARCHIVE_MAP" =>
      Ok [("bert-base-uncased", "https://models/bert-base-uncased.bin");
          ("bert-base-cased", "https://models/bert-base-cased.bin")]%string
  | _ => Raise (AttributeError "items")
  end.

Definition sample_getitem (m : pyobj) (key : string) : result string :=
  match m with
  | Imported _ "BERT_PRETRAINED_CONFIG_ARCHIVE_MAP" =>
      Ok ("https://configs/" ++ key ++ ".json")%string
  | _ => Raise (AttributeError "__getitem__")
  end.

End GPT2rest.

(** ** joint_intent_slot_with_bert.py: views of a run *)

Module ScriptViews.
Import JointIntentSlot.

(** The same command line with or without [--do_lower_case]. *)
Definition with_do_lower_case (b : bool) (a : args.t) : args.t := {|
  args.data_dir := args.data_dir a; args.work_dir := args.work_dir a;
  args.checkpoint_dir := args.checkpoint_dir a;
  args.pretrained_model_name := args.pretrained_model_name a;
  args.bert_checkpoint := args.bert_checkpoint a; args.bert_config := args.bert_config a;
  args.vocab_file := args.vocab_file a; args.tokenizer := args.tokenizer a;
  args.tokenizer_model := args.tokenizer_model a;
  args.train_file_prefix := args.train_file_prefix a;
  args.eval_file_prefix := args.eval_file_prefix a;
  args.num_epochs := args.num_epochs a; args.batch_size := args.batch_size a;
  args.max_seq_length := args.max_seq_length a;
  args.num_gpus := args.num_gpus a;
  args.optimizer_kind := args.optimizer_kind a; args.amp_opt_level := args.amp_opt_level a;
  args.lr := args.lr a; args.lr_policy := args.lr_policy a;
  args.lr_warmup_proportion := args.lr_warmup_proportion a;
  args.weight_decay := args.weight_decay a;
  args.fc_dropout := args.fc_dropout a; args.intent_loss_weight := args.intent_loss_weight a;
  args.class_balancing := args.class_balancing a; args.do_lower_case := b;
  args.shuffle_data := args.shuffle_data a;
  args.ignore_start_end := args.ignore_start_end a;
  args.ignore_extra_tokens := args.ignore_extra_tokens a;
  args.none_slot_label := args.none_slot_label a; args.pad_label := args.pad_label a;
  args.num_train_samples := args.num_train_samples a;
  args.num_eval_samples := args.num_eval_samples a;
  args.save_epoch_freq := args.save_epoch_freq a; args.save_step_freq := args.save_step_freq a;
  args.local_rank := args.local_rank a
|}.

(** The data layers of lines 222 and 229, and what line 195 divides by
    for each. *)
Definition train_layer (a : args.t) (g : globals) : BertJointIntentSlotDataLayer :=
  new_data_layer a g (args.num_train_samples a) (args.batch_size a)
    (args.train_file_prefix a) true.

Definition eval_layer (a : args.t) (g : globals) : BertJointIntentSlotDataLayer :=
  new_data_layer a g (args.num_eval_samples a) (args.batch_size a)
    (args.eval_file_prefix a) false.

Definition divisor (w : world) (a : args.t) (layer : BertJointIntentSlotDataLayer) : Z :=
  effective_batch_size (Z.of_N (len w layer)) (args.batch_size a) * args.num_gpus a.

(** The warnings a trace logs. *)
Definition warnings (t : trace) : list (list fragment) :=
  omap (fun e => match e with
                 | Logging "warning" message => Some message
                 | _ => None
                 end) t.

(** The checkpoints a trace restores. *)
Definition restores (t : trace) : list (option string) :=
  omap (fun e => match e with Restore_from c => Some c | _ => None end) t.

(** The tokenizers a trace builds. *)
Definition tokenizers (t : trace) : list get_tokenizer :=
  omap (fun e => match e with New_tokenizer tk => Some tk | _ => None end) t.

(** A tensor and all the tensors it was computed from. *)
Fixpoint subtensors (x : NmTensor) : list NmTensor :=
  match x with
  | Output _ ins _ =>
      x :: flat_map (fun kv => match kv with (_, y) => subtensors y end) ins
  end.

(** The keywords of the call that produced a tensor. *)
Definition keywords (x : NmTensor) : list string := map fst (inputs x).

(** A world for examples whose data layers hold as many examples as
    their [num_samples] says. *)
Definition sized_world : world := {|
  path_exists := fun _ => true;
  __file__ := __file__ (sample_world 0);
  hidden_size := hidden_size (sample_world 0);
  describe := describe (sample_world 0);
  len := fun layer => Z.to_N (dl_num_samples layer);
  nf_work_dir := nf_work_dir (sample_world 0);
  nf_checkpoint_dir_attr := nf_checkpoint_dir_attr (sample_world 0)
|}.

End ScriptViews.

(** ** Properties of [GPT2.__init__] *)

Module GPT2Facts.
Import GPT2nm.

Section InitFacts.

Variable G : gmap string pyobj.
Variable _device : string.
Variable config_hidden_size : hf_config -> Z.

Lemma total_supplied (a : init_args) : total a = Z.of_nat (supplied a).
Proof.
  unfold total, supplied.
  destruct (pretrained_model_name a), (config_filename a), (vocab_size a); reflexivity.
Qed.

Lemma total_one_iff (a : init_args) : (total a =? 1) = (supplied a =? 1)%nat.
Proof.
  rewrite total_supplied.
  destruct (Nat.eqb_spec (supplied a) 1) as [-> | Hne]; [reflexivity |].
  apply Z.eqb_neq. lia.
Qed.

(** [load_global] raises nothing but [NameError]. *)
Lemma load_global_cases (x : string) :
  (exists v, G !! x = Some v /\ load_global G x = Ok v)
  \/ (G !! x = None /\ load_global G x = Raise (NameError x)).
Proof.
  unfold load_global. destruct (G !! x) as [v |]; [left; eauto | right; auto].
Qed.

(** Case analysis on every global the goal loads. *)
Ltac case_globals :=
  repeat match goal with
  | |- context [load_global G ?x] =>
      destruct (load_global_cases x) as [(? & ? & ->) | (? & ->)]; simpl
  end.

(** Whatever [build_model] does when one of the three arguments is
    given, it is not a [ValueError]. *)
Lemma build_model_no_ValueError (a : init_args) :
  supplied a <> 0%nat -> is_ValueError (build_model G a) = false.
Proof.
  unfold build_model, supplied. intros Hs.
  destruct (vocab_size a) as [vs |], (pretrained_model_name a) as [nm |],
    (config_filename a) as [cf |]; simpl in *; try lia;
    case_globals; reflexivity.
Qed.

(** A model that was built is an instance of what the name [BertModel]
    is bound to. *)
Lemma build_model_class (a : init_args) (m : hf_model) :
  build_model G a = Ok m -> G !! "BertModel" = Some (model_class m).
Proof.
  unfold build_model.
  destruct (vocab_size a) as [vs |], (pretrained_model_name a) as [nm |],
    (config_filename a) as [cf |]; simpl;
    case_globals; try discriminate; intros [= <-]; assumption.
Qed.

Lemma init_ok_inv (a : init_args) (self : instance) :
  __init__ G _device config_hidden_size a = Ok self ->
  exists m, build_model G a = Ok m
            /\ _modules self !! "bert" = Some (m, _device)
            /\ config self = model_config m.
Proof.
  unfold __init__. destruct (negb (total a =? 1)); [discriminate |].
  destruct (build_model G a) as [m | e]; [| discriminate].
  simpl. intros [= <-]. exists m. simpl. rewrite lookup_insert_eq. auto.
Qed.

End InitFacts.

(** With the names the module really binds, the model-building branch
    stops at the first Bert name it evaluates. *)
Lemma build_model_unbound (a : init_args) :
  supplied a <> 0%nat ->
  exists x, (x = "BertConfig" \/ x = "BertModel")%string
            /\ build_model module_globals a = Raise (NameError x).
Proof.
  unfold build_model, supplied. intros Hs.
  destruct (vocab_size a) as [vs |], (pretrained_model_name a) as [nm |],
    (config_filename a) as [cf |]; simpl in *; try lia; eauto.
Qed.

(** C2: the constructor raises a ValueError exactly when the number of
    non-None arguments among pretrained_model_name, config_filename and
    vocab_size differs from one; with exactly one of them it raises no
    ValueError.  This holds whatever the module's global names are bound
    to. *)
Theorem init_ValueError_iff (G : gmap string pyobj) (_device : string)
    (config_hidden_size : hf_config -> Z) (a : init_args) :
  (is_ValueError (__init__ G _device config_hidden_size a) = true <-> supplied a <> 1%nat)
  /\ (is_ValueError (__init__ G _device config_hidden_size a) = false <-> supplied a = 1%nat).
Proof.
  assert (E : is_ValueError (__init__ G _device config_hidden_size a)
              = negb (supplied a =? 1)%nat).
  { unfold __init__. rewrite total_one_iff.
    destruct (Nat.eqb_spec (supplied a) 1) as [H1 | H1]; simpl; [| reflexivity].
    assert (Hb : is_ValueError (build_model G a) = false)
      by (apply build_model_no_ValueError; lia).
    destruct (build_model G a) as [m | e]; [reflexivity | exact Hb]. }
  rewrite E.
  destruct (Nat.eqb_spec (supplied a) 1) as [H1 | H1]; simpl; split; split;
    intros; congruence.
Qed.

(** C3: with exactly one of the three arguments, the constructor stops
    with a NameError on BertConfig or BertModel, names the module does not
    bind (it binds GPT2Config and GPT2Model); it never reaches the
    ValueError of its final else branch, and no call of it returns an
    instance. *)
Theorem init_NameError (_device : string) (config_hidden_size : hf_config -> Z)
    (a : init_args) :
  supplied a = 1%nat ->
  (exists x, (x = "BertConfig" \/ x = "BertModel")%string
             /\ module_globals !! x = None
             /\ __init__ module_globals _device config_hidden_size a = Raise (NameError x))
  /\ is_Some (module_globals !! "GPT2Config") /\ is_Some (module_globals !! "GPT2Model")
  /\ (forall b : init_args,
        __init__ module_globals _device config_hidden_size b <> Raise the_ValueError_of_the_else
        /\ is_ok (__init__ module_globals _device config_hidden_size b) = false).
Proof.
  intros H1. split; [| split; [| split]].
  - destruct (build_model_unbound a) as (x & Hx & E); [lia |].
    exists x. split; [exact Hx |]. split.
    + destruct Hx as [-> | ->]; reflexivity.
    + unfold __init__. rewrite total_one_iff, H1. simpl. rewrite E. reflexivity.
  - eexists; reflexivity.
  - eexists; reflexivity.
  - intros b. unfold __init__. rewrite total_one_iff.
    destruct (Nat.eqb_spec (supplied b) 1) as [Hb | Hb]; simpl.
    + destruct (build_model_unbound b) as (x & _ & ->); [lia |]. simpl.
      split; [discriminate | reflexivity].
    + split; [discriminate | reflexivity].
Qed.

Lemma init_NameError_witness :
  supplied (call_with (Some "gpt2") None None) = 1%nat
  /\ is_NameError (__init__ module_globals "cuda" (fun _ => 768)
                     (call_with (Some "gpt2") None None)) = true.
Proof.
  split; [reflexivity |].
  destruct (init_NameError "cuda" (fun _ => 768) (call_with (Some "gpt2") None None)
              eq_refl) as [(x & _ & _ & E) _].
  rewrite E. reflexivity.
Defined.

(** C4, evaluated: [GPT2(pretrained_model_name="gpt2")] stops with a
    NameError on BertModel instead of building a GPT2Model; and in a
    module that also bound the two Bert names, every instance the
    constructor returned would hold an instance of that BertModel, which
    [forward] then calls, not of GPT2Model. *)
Theorem init_gpt2_builds_no_GPT2Model :
  __init__ module_globals "cuda" (fun _ => 768) (call_with (Some "gpt2") None None)
  = Raise (NameError "BertModel")
  /\ (exists self,
        __init__ globals_with_bert "cuda" (fun _ => 768) (call_with (Some "gpt2") None None)
        = Ok self
        /\ forward self "input_ids" "token_type_ids" "attention_mask"
           = Ok (ModelOutput (ModelFromPretrained (Imported "transformers" "BertModel") "gpt2")
                   "input_ids" "token_type_ids" "attention_mask" 0%nat))
  /\ (forall G _device config_hidden_size a self,
        __init__ G _device config_hidden_size a = Ok self ->
        exists m, _modules self !! "bert" = Some (m, _device)
                  /\ G !! "BertModel" = Some (model_class m)
                  /\ forward self "input_ids" "token_type_ids" "attention_mask"
                     = Ok (ModelOutput m "input_ids" "token_type_ids" "attention_mask" 0%nat)).
Proof.
  split; [reflexivity |]. split.
  - eexists. split; reflexivity.
  - intros G d hs a self H.
    destruct (init_ok_inv G d hs a self H) as (m & Hm & Hl & _).
    exists m. split; [exact Hl |]. split.
    + eapply build_model_class; eassumption.
    + unfold forward. rewrite Hl. reflexivity.
Qed.

End GPT2Facts.

(** ** Properties of the training script *)

Module ScriptFacts.
Import JointIntentSlot.

(** Running the monad's operations. *)
Ltac exec :=
  unfold mbind, M_bind, mret, M_ret, raise, emit, logging_info, logging_warning; cbn.

Section Steps.
Context {A B : Type}.

Lemma bind_ok (m : M A) (k : A -> M B) (t t1 : trace) (x : A) :
  m t = (t1, Ok x) -> (m ≫= k) t = k x t1.
Proof. intros H. unfold mbind, M_bind. rewrite H. reflexivity. Qed.

Lemma bind_raise (m : M A) (k : A -> M B) (t t1 : trace) (e : exn) :
  m t = (t1, Raise e) -> (m ≫= k) t = (t1, Raise e).
Proof. intros H. unfold mbind, M_bind. rewrite H. reflexivity. Qed.

End Steps.

Lemma train_calls_app (t1 t2 : trace) :
  train_calls (t1 ++ t2) = train_calls t1 ++ train_calls t2.
Proof. apply omap_app. Qed.

Lemma encoders_app (t1 t2 : trace) :
  encoders (t1 ++ t2) = encoders t1 ++ encoders t2.
Proof. apply omap_app. Qed.

Lemma data_layers_app (t1 t2 : trace) :
  data_layers (t1 ++ t2) = data_layers t1 ++ data_layers t2.
Proof. apply omap_app. Qed.

Lemma truthy_py_and (x y : option string) : truthy (py_and x y) = truthy x && truthy y.
Proof. unfold py_and. destruct (truthy x) eqn:E; simpl; [reflexivity | exact E]. Qed.

(** The test of line 123. *)
Lemma megatron_test (a : args.t) :
  truthy (py_and (py_and (args.bert_config a) (args.bert_checkpoint a)) (args.vocab_file a))
  = truthy (args.bert_config a) && truthy (args.bert_checkpoint a)
    && truthy (args.vocab_file a).
Proof. rewrite !truthy_py_and. reflexivity. Qed.

(** *** Ceiling division *)

Lemma ceil_div_nonzero (x y : Z) : y <> 0 -> ceil_div x y = Ok (- ((- x) / y)).
Proof. intros H. unfold ceil_div. apply Z.eqb_neq in H. rewrite H. reflexivity. Qed.

Lemma ceil_div_zero (x : Z) : ceil_div x 0 = Raise ZeroDivisionError.
Proof. reflexivity. Qed.




(** *** The steps before [create_pipeline] *)

Section Setup.
Variable w : world.
Variable a : args.t.

Lemma setup_missing_data (t : trace) :
  path_exists w (args.data_dir a) = false ->
  setup w a t = (t, Raise (ValueError ("Data not found at " ++ args.data_dir a))).
Proof.
  intros H. unfold setup, check_data_dir. rewrite H. reflexivity.
Qed.

Lemma select_model_incomplete (t : trace) :
  model_args_complete a = false ->
  select_model a t
  = (t, Raise (FileNotFoundError
      "Config file, checkpoint and vocabulary file should be provided for Megatron models.")).
Proof.
  unfold model_args_complete, select_model. rewrite megatron_test.
  destruct (String.eqb (args.pretrained_model_name a) "megatron"); simpl;
    [intros -> | discriminate]. reflexivity.
Qed.

Lemma select_model_complete (t : trace) :
  model_args_complete a = true ->
  let src :=
    if String.eqb (args.pretrained_model_name a) "megatron"
    then MegatronBERT (args.bert_config a) (args.vocab_file a)
    else get_huggingface_model (args.bert_config a) (args.pretrained_model_name a) in
  select_model a t = (t ++ [New_encoder src], Ok {| enc_source := src; enc_restored_from := [] |}).
Proof.
  unfold model_args_complete, select_model. rewrite megatron_test.
  destruct (String.eqb (args.pretrained_model_name a) "megatron"); simpl;
    [intros -> |]; reflexivity.
Qed.

Lemma make_nf_eq (t : trace) :
  exists nf, make_nf w a t = (t ++ [New_NeuralModuleFactory nf], Ok nf)
             /\ nf_local_rank nf = args.local_rank a
             /\ nf_optimization_level nf = args.amp_opt_level a.
Proof. eexists. split; [reflexivity | split; reflexivity]. Qed.

Lemma setup_incomplete (t : trace) :
  path_exists w (args.data_dir a) = true ->
  model_args_complete a = false ->
  exists nf,
    setup w a t
    = (t ++ [New_NeuralModuleFactory nf],
       Raise (FileNotFoundError
         "Config file, checkpoint and vocabulary file should be provided for Megatron models."))
    /\ nf_local_rank nf = args.local_rank a
    /\ nf_optimization_level nf = args.amp_opt_level a.
Proof.
  intros Hp Hm. destruct (make_nf_eq t) as (nf & E & H1 & H2).
  exists nf. split; [| auto].
  unfold setup, check_data_dir. rewrite Hp. simpl.
  rewrite (bind_ok (mret tt) _ t t tt) by reflexivity.
  rewrite (bind_ok _ _ _ _ _ E).
  apply bind_raise. apply select_model_incomplete, Hm.
Qed.

Lemma setup_complete (t : trace) :
  path_exists w (args.data_dir a) = true ->
  model_args_complete a = true ->
  let src :=
    if String.eqb (args.pretrained_model_name a) "megatron"
    then MegatronBERT (args.bert_config a) (args.vocab_file a)
    else get_huggingface_model (args.bert_config a) (args.pretrained_model_name a) in
  exists nf0 t' g,
    setup w a t = (t ++ New_NeuralModuleFactory nf0 :: New_encoder src :: t', Ok g)
    /\ nf g = nf0
    /\ nf_local_rank nf0 = args.local_rank a
    /\ nf_optimization_level nf0 = args.amp_opt_level a
    /\ enc_source (model g) = src
    /\ la_weights (total_loss_fn g) = loss_weights a
    /\ train_calls t' = [] /\ data_layers t' = [] /\ encoders t' = [].
Proof.
  intros Hp Hm src. unfold setup, check_data_dir. rewrite Hp. simpl.
  rewrite (bind_ok (mret tt) _ t t tt) by reflexivity.
  destruct (make_nf_eq t) as (nf0 & E & H1 & H2).
  rewrite (bind_ok _ _ _ _ _ E).
  rewrite (bind_ok _ _ _ _ _ (select_model_complete _ Hm)).
  fold src.
  unfold make_tokenizer, restore, make_data_desc, make_classifier, make_losses,
    make_cross_entropy, make_total_loss_fn.
  exists nf0.
  destruct (truthy (args.bert_checkpoint a));
    destruct (String.eqb (args.class_balancing a) "weighted_loss");
    exec; rewrite <- !app_assoc; simpl;
    eexists; eexists; (split; [reflexivity |]); simpl;
    repeat (split; [reflexivity || assumption |]); reflexivity.
Qed.

End Setup.

(** *** [create_pipeline] *)

Section Pipeline.
Variable w : world.
Variable a : args.t.
Variable g : globals.
Variables num_samples batch_size : Z.
Variable data_prefix : string.
Variable is_training : bool.
Variable num_gpus : Z.

Local Abbreviation data_layer :=
  (new_data_layer a g num_samples batch_size data_prefix is_training).
Local Abbreviation data_size := (Z.of_N (len w data_layer)).
Local Abbreviation divisor := (effective_batch_size data_size batch_size * num_gpus).

Local Arguments ceil_div : simpl never.
Local Arguments new_data_layer : simpl never.
Local Arguments graph : simpl never.

(** Up to the division of line 195: the data layer is built, its length
    logged, the batch size lowered when it exceeds that length. *)
Lemma create_pipeline_unfold (t : trace) :
  exists t',
    create_pipeline w a g num_samples batch_size data_prefix is_training num_gpus t
    = match ceil_div data_size divisor with
      | Ok steps_per_epoch =>
          (t ++ t' ++ [Logging "info" [Text "Steps_per_epoch = "; Int steps_per_epoch]],
           Ok (fst (graph g (NM_data_layer data_layer) is_training),
               snd (graph g (NM_data_layer data_layer) is_training),
               steps_per_epoch, data_layer))
      | Raise e => (t ++ t', Raise e)
      end
    /\ data_layers t' = [data_layer] /\ train_calls t' = [] /\ encoders t' = [].
Proof.
  exists ([Logging "info" [Text "Loading "; Text data_prefix; Text " data..."];
           New_data_layer data_layer;
           Logging "info" [Text "The length of data layer is "; Int data_size]]
          ++ (if data_size <? batch_size
              then [Logging "warning" [Text "Batch_size is larger than the dataset size"];
                    Logging "warning" [Text "Reducing batch_size to dataset size"]]
              else [])).
  unfold create_pipeline, effective_batch_size.
  destruct (data_size <? batch_size); exec;
    (split; [| repeat split; reflexivity]);
    destruct (ceil_div _ _) as [s | e]; cbn;
    try (destruct (graph g _ is_training) as [tensors total_loss]); cbn;
    rewrite <- ?app_assoc; reflexivity.
Qed.

Lemma create_pipeline_raises (t : trace) :
  divisor = 0 ->
  exists t',
    create_pipeline w a g num_samples batch_size data_prefix is_training num_gpus t
    = (t ++ t', Raise ZeroDivisionError)
    /\ data_layers t' = [data_layer] /\ train_calls t' = [] /\ encoders t' = [].
Proof.
  intros H0. destruct (create_pipeline_unfold t) as (t' & E & Hd & Ht & He).
  rewrite H0, ceil_div_zero in E. eauto.
Qed.

Lemma create_pipeline_returns (t : trace) :
  divisor <> 0 ->
  exists t',
    create_pipeline w a g num_samples batch_size data_prefix is_training num_gpus t
    = (t ++ t',
       Ok (fst (graph g (NM_data_layer data_layer) is_training),
           snd (graph g (NM_data_layer data_layer) is_training),
           - ((- data_size) / divisor), data_layer))
    /\ data_layers t' = [data_layer] /\ train_calls t' = [] /\ encoders t' = [].
Proof.
  intros H0. destruct (create_pipeline_unfold t) as (t' & E & Hd & Ht & He).
  rewrite (ceil_div_nonzero _ _ H0) in E. rewrite E.
  eexists. split; [reflexivity |].
  rewrite data_layers_app, train_calls_app, encoders_app, Hd, Ht, He.
  repeat split; reflexivity.
Qed.

(** Either way the pipeline ends, it built no encoder and trained nothing. *)
Lemma create_pipeline_cases (t : trace) :
  exists t' r,
    create_pipeline w a g num_samples batch_size data_prefix is_training num_gpus t
    = (t ++ t', r)
    /\ (r = Raise ZeroDivisionError \/ exists p, r = Ok p)
    /\ encoders t' = [] /\ train_calls t' = [].
Proof.
  destruct (Z.eq_dec divisor 0) as [H0 | H0].
  - destruct (create_pipeline_raises t H0) as (t' & E & _ & Ht & He).
    exists t', (Raise ZeroDivisionError). auto.
  - destruct (create_pipeline_returns t H0) as (t' & E & _ & Ht & He).
    exists t'. eexists. split; [exact E |]. eauto.
Qed.

End Pipeline.

(** The graph of every pipeline is wired as [wired] says. *)
Lemma graph_wired (g : globals) (data_layer : BertJointIntentSlotDataLayer)
    (is_training : bool) :
  wired g data_layer (snd (graph g (NM_data_layer data_layer) is_training)).
Proof.
  set (out := field (NM_data_layer data_layer)).
  set (hidden_states :=
         call (NM_encoder (model g))
           [("input_ids", out "input_ids"); ("token_type_ids", out "input_type_ids");
            ("attention_mask", out "input_mask")]).
  set (logits := call2 (NM_classifier (classifier g)) [("hidden_states", hidden_states)]).
  set (intent_loss :=
         call (NM_cross_entropy (intent_loss_fn g))
           [("logits", fst logits); ("labels", out "intents")]).
  set (slot_loss :=
         call (NM_cross_entropy (slot_loss_fn g))
           [("logits", snd logits); ("labels", out "slots"); ("loss_mask", out "loss_mask")]).
  exists hidden_states, (fst logits), (snd logits), intent_loss, slot_loss.
  unfold feeds. cbn. intuition.
Qed.

(** *** The whole script *)

Section Whole.
Variable w : world.
Variable a : args.t.

Lemma script_unfold (t : trace) :
  script w a t
  = match setup w a t with
    | (t1, Ok g) =>
        match train_pipeline w a g t1 with
        | (t2, Ok (train_tensors, train_loss, train_steps_per_epoch, _)) =>
            match eval_pipeline w a g t2 with
            | (t3, Ok (eval_tensors, _, _, _)) =>
                train w a g train_tensors train_loss train_steps_per_epoch eval_tensors t3
            | (t3, Raise e) => (t3, Raise e)
            end
        | (t2, Raise e) => (t2, Raise e)
        end
    | (t1, Raise e) => (t1, Raise e)
    end.
Proof.
  unfold script, mbind, M_bind.
  destruct (setup w a t) as [t1 [g | e]]; [| reflexivity].
  destruct (train_pipeline w a g t1) as [t2 [[[[tt tl] s] d] | e]]; [| reflexivity].
  destruct (eval_pipeline w a g t2) as [t3 [[[[et el] es] ed] | e]]; reflexivity.
Qed.

(** Lines 238-279 build three callbacks and a policy, then make the one
    training call. *)
Lemma train_eq (g : globals) (train_tensors : list NmTensor) (train_loss : NmTensor)
    (train_steps_per_epoch : Z) (eval_tensors : list NmTensor) (t : trace) :
  exists t',
    train w a g train_tensors train_loss train_steps_per_epoch eval_tensors t
    = (t ++ t', Ok tt)
    /\ train_calls t'
       = [nf_train a train_loss
            [CB_train (train_callback g train_tensors train_steps_per_epoch);
             CB_eval (eval_callback w g eval_tensors train_steps_per_epoch);
             CB_ckpt (ckpt_callback w a g)]
            (lr_policy_fn a train_steps_per_epoch)]
    /\ encoders t' = [] /\ data_layers t' = [].
Proof.
  unfold train. exec. rewrite <- !app_assoc. cbn.
  eexists. split; [reflexivity |]. repeat split; reflexivity.
Qed.

(** What the two pipelines and the training call add to a trace, and how
    they can end. *)
Lemma after_setup (g : globals) (t1 : trace) :
  exists t' r,
    match train_pipeline w a g t1 with
    | (t2, Ok (train_tensors, train_loss, train_steps_per_epoch, _)) =>
        match eval_pipeline w a g t2 with
        | (t3, Ok (eval_tensors, _, _, _)) =>
            train w a g train_tensors train_loss train_steps_per_epoch eval_tensors t3
        | (t3, Raise e) => (t3, Raise e)
        end
    | (t2, Raise e) => (t2, Raise e)
    end = (t1 ++ t', r)
    /\ (r = Ok tt \/ r = Raise ZeroDivisionError)
    /\ encoders t' = [].
Proof.
  unfold train_pipeline, eval_pipeline.
  destruct (create_pipeline_cases w a g (args.num_train_samples a) (args.batch_size a)
              (args.train_file_prefix a) true (args.num_gpus a) t1)
    as (u1 & r1 & -> & [-> | [[[[tt tl] s] d] ->]] & E1 & _).
  { exists u1, (Raise ZeroDivisionError). auto. }
  destruct (create_pipeline_cases w a g (args.num_eval_samples a) (args.batch_size a)
              (args.eval_file_prefix a) false (args.num_gpus a) (t1 ++ u1))
    as (u2 & r2 & -> & [-> | [[[[et el] es] ed] ->]] & E2 & _).
  { exists (u1 ++ u2), (Raise ZeroDivisionError).
    rewrite <- app_assoc. split; [reflexivity |]. split; [auto |].
    rewrite encoders_app, E1, E2. reflexivity. }
  destruct (train_eq g tt tl s et ((t1 ++ u1) ++ u2)) as (u3 & -> & _ & E3 & _).
  exists (u1 ++ u2 ++ u3), (Ok ()). rewrite <- !app_assoc. split; [reflexivity |].
  split; [auto |]. rewrite !encoders_app, E1, E2, E3. reflexivity.
Qed.

End Whole.

(** Case analysis on what follows [setup] in the goal. *)
Ltac after_setup_cases w a g pat :=
  match goal with
  | |- context [train_pipeline w a g ?u] => destruct (after_setup w a g u) as pat
  end.


(** C5: when the path given by [--data_dir] does not exist the script
    raises a ValueError before anything is built, leaving the trace as it
    was; when it exists the check raises nothing: the script goes on to
    build the NeuralModuleFactory and never raises a ValueError. *)
Theorem data_dir_check (w : world) (a : args.t) (t : trace) :
  (path_exists w (args.data_dir a) = false ->
   script w a t = (t, Raise (ValueError ("Data not found at " ++ args.data_dir a))))
  /\ (path_exists w (args.data_dir a) = true ->
      check_data_dir w a t = (t, Ok tt)
      /\ is_ValueError (snd (script w a t)) = false
      /\ exists nf0 t', fst (script w a t) = t ++ New_NeuralModuleFactory nf0 :: t').
Proof.
  split; intros Hp.
  - rewrite script_unfold, setup_missing_data by exact Hp. reflexivity.
  - split; [unfold check_data_dir; rewrite Hp; reflexivity |].
    rewrite script_unfold.
    destruct (model_args_complete a) eqn:Hm.
    + destruct (setup_complete w a t Hp Hm) as (nf0 & t1 & g & -> & _).
      after_setup_cases w a g ipattern:((t2 & r & -> & Hr & _)).
      split; [destruct Hr as [-> | ->]; reflexivity |].
      exists nf0. eexists. simpl. rewrite <- app_assoc. reflexivity.
    + destruct (setup_incomplete w a t Hp Hm) as (nf0 & -> & _).
      split; [reflexivity |]. exists nf0, []. reflexivity.
Qed.

Lemma data_dir_check_witness :
  run bare_world args.defaults = ([], Raise (ValueError "Data not found at data/atis"))
  /\ check_data_dir (sample_world 1000) args.defaults [] = ([], Ok tt)
  /\ is_ValueError (snd (run (sample_world 1000) args.defaults)) = false.
Proof.
  split.
  - apply (proj1 (data_dir_check bare_world args.defaults [])). reflexivity.
  - destruct (proj2 (data_dir_check (sample_world 1000) args.defaults []) eq_refl)
      as (H1 & H2 & _).
    split; [exact H1 | exact H2].
Defined.




(** C7: in every pipeline [create_pipeline] returns, the outputs of the
    data layer it built feed the encoder, the encoder's hidden states feed
    the classifier, the classifier's two logits feed the two cross-entropy
    losses, and the two losses feed the aggregator that produces the
    returned total loss. *)
Theorem pipeline_wiring (w : world) (a : args.t) (g : globals) (num_samples batch_size : Z)
    (data_prefix : string) (is_training : bool) (num_gpus : Z) (t t' : trace)
    (tensors : list NmTensor) (total_loss : NmTensor) (steps_per_epoch : Z)
    (data_layer : BertJointIntentSlotDataLayer) :
  create_pipeline w a g num_samples batch_size data_prefix is_training num_gpus t
  = (t', Ok (tensors, total_loss, steps_per_epoch, data_layer)) ->
  wired g data_layer total_loss
  /\ data_layers t' = data_layers t ++ [data_layer]
  /\ (is_training = true -> head tensors = Some total_loss).
Proof.
  intros H.
  destruct (create_pipeline_unfold w a g num_samples batch_size data_prefix is_training
              num_gpus t) as (u & E & Hd & _).
  rewrite H in E. destruct (ceil_div _ _) as [s | e]; [| discriminate].
  remember (graph g (NM_data_layer
                       (new_data_layer a g num_samples batch_size data_prefix is_training))
              is_training) as G eqn:HG.
  injection E as -> -> -> -> ->. subst G.
  split; [apply graph_wired |]. split.
  - rewrite !data_layers_app, Hd, app_nil_r. reflexivity.
  - intros ->. reflexivity.
Qed.

Lemma pipeline_wiring_witness :
  wired sample_globals
    (new_data_layer args.defaults sample_globals (-1) 128 "train" true)
    (snd (graph sample_globals
            (NM_data_layer (new_data_layer args.defaults sample_globals (-1) 128 "train" true))
            true)).
Proof.
  apply (pipeline_wiring (sample_world 1000) args.defaults sample_globals (-1) 128
           "train" true 1 []
           (fst (create_pipeline (sample_world 1000) args.defaults sample_globals (-1) 128
                   "train" true 1 []))
           (fst (graph sample_globals
                   (NM_data_layer
                      (new_data_layer args.defaults sample_globals (-1) 128 "train" true))
                   true))
           _ 8 _).
  reflexivity.
Defined.

(** C9: the data layer of a pipeline built with [is_training=False] has
    [shuffle=False] whatever [--no_shuffle_data] says: two command lines
    that differ in that flag alone get the same module-level objects, ask
    for the same evaluation data layer and build the same evaluation
    pipeline.  With [is_training=True], [shuffle] is the flag. *)
Theorem eval_shuffle_independent (w : world) (a : args.t) (g : globals)
    (num_samples batch_size : Z) (data_prefix : string) (num_gpus : Z) (t : trace)
    (b is_training : bool) :
  dl_shuffle (new_data_layer a g num_samples batch_size data_prefix false) = false
  /\ dl_shuffle (new_data_layer a g num_samples batch_size data_prefix true)
     = args.shuffle_data a
  /\ data_layers (fst (create_pipeline w a g num_samples batch_size data_prefix
                         is_training num_gpus t))
     = data_layers t ++ [new_data_layer a g num_samples batch_size data_prefix is_training]
  /\ setup w (args.with_shuffle_data b a) t = setup w a t
  /\ new_data_layer (args.with_shuffle_data b a) g num_samples batch_size data_prefix false
     = new_data_layer a g num_samples batch_size data_prefix false
  /\ create_pipeline w (args.with_shuffle_data b a) g num_samples batch_size data_prefix
       false num_gpus t
     = create_pipeline w a g num_samples batch_size data_prefix false num_gpus t
  /\ eval_pipeline w (args.with_shuffle_data b a) g t = eval_pipeline w a g t.
Proof.
  split; [reflexivity |]. split; [reflexivity |]. split.
  - destruct (create_pipeline_cases w a g num_samples batch_size data_prefix is_training
                num_gpus t) as (u & r & E & _).
    destruct (create_pipeline_unfold w a g num_samples batch_size data_prefix is_training
                num_gpus t) as (u' & E' & Hd & _).
    rewrite E'. destruct (ceil_div _ _); cbn [fst];
      rewrite !data_layers_app, Hd, ?app_nil_r; reflexivity.
  - repeat split; reflexivity.
Qed.

(** *** Steps per epoch *)




(** *** What reaches the training call *)

(** The training calls of a run: none unless both pipelines return, and
    then the one call whose arguments are made of the module-level
    objects, the two graphs and the steps per epoch of the training
    pipeline. *)
Lemma train_calls_logging (level : string) (message : list fragment) :
  train_calls [Logging level message] = [].
Proof. reflexivity. Qed.

Lemma script_train_calls (w : world) (a : args.t) (num_gpus : Z) (t1 : trace) (g : globals) :
  let train_layer :=
    new_data_layer a g (args.num_train_samples a) (args.batch_size a)
      (args.train_file_prefix a) true in
  let eval_layer :=
    new_data_layer a g (args.num_eval_samples a) (args.batch_size a)
      (args.eval_file_prefix a) false in
  let divisor layer :=
    effective_batch_size (Z.of_N (len w layer)) (args.batch_size a) * num_gpus in
  train_calls
    (fst match create_pipeline w a g (args.num_train_samples a) (args.batch_size a)
                 (args.train_file_prefix a) true num_gpus t1 with
         | (t2, Ok (train_tensors, train_loss, train_steps_per_epoch, _)) =>
             match create_pipeline w a g (args.num_eval_samples a) (args.batch_size a)
                     (args.eval_file_prefix a) false num_gpus t2 with
             | (t3, Ok (eval_tensors, _, _, _)) =>
                 train w a g train_tensors train_loss train_steps_per_epoch eval_tensors t3
             | (t3, Raise e) => (t3, Raise e)
             end
         | (t2, Raise e) => (t2, Raise e)
         end)
  = train_calls t1
    ++ match ceil_div (Z.of_N (len w train_layer)) (divisor train_layer),
             ceil_div (Z.of_N (len w eval_layer)) (divisor eval_layer) with
       | Ok steps, Ok _ =>
           [nf_train a (snd (graph g (NM_data_layer train_layer) true))
              [CB_train (train_callback g (fst (graph g (NM_data_layer train_layer) true))
                           steps);
               CB_eval (eval_callback w g (fst (graph g (NM_data_layer eval_layer) false))
                          steps);
               CB_ckpt (ckpt_callback w a g)]
              (lr_policy_fn a steps)]
       | _, _ => []
       end.
Proof.
  intros train_layer eval_layer divisor.
  destruct (create_pipeline_unfold w a g (args.num_train_samples a) (args.batch_size a)
              (args.train_file_prefix a) true num_gpus t1) as (u1 & -> & _ & H1 & _).
  fold train_layer. fold (divisor train_layer).
  destruct (ceil_div _ (divisor train_layer)) as [s |];
    [| cbn [fst]; rewrite train_calls_app, H1; reflexivity].
  match goal with
  | |- context [create_pipeline w a g _ _ _ false num_gpus ?t2] =>
      destruct (create_pipeline_unfold w a g (args.num_eval_samples a) (args.batch_size a)
                  (args.eval_file_prefix a) false num_gpus t2) as (u2 & -> & _ & H2 & _)
  end.
  fold eval_layer. fold (divisor eval_layer).
  destruct (ceil_div _ (divisor eval_layer)) as [s' |];
    [| cbn [fst]; rewrite !train_calls_app, H1, H2, train_calls_logging;
       cbn [app]; rewrite !app_nil_r; reflexivity].
  match goal with
  | |- context [train w a g ?tt ?tl ?st ?et ?t3] =>
      destruct (train_eq w a g tt tl st et t3) as (u3 & -> & H3 & _)
  end.
  cbn [fst]. rewrite !train_calls_app, H1, H2, H3, !train_calls_logging.
  cbn [app]. rewrite !app_nil_r. reflexivity.
Qed.

(** When [ceil_div] returns, its divisor was not zero. *)
Lemma ceil_div_ok_nonzero (x y q : Z) : ceil_div x y = Ok q -> y <> 0.
Proof. unfold ceil_div. destruct (Z.eqb_spec y 0); [discriminate | auto]. Qed.

Lemma ceil_div_is_ok (x y : Z) : is_ok (ceil_div x y) = negb (y =? 0).
Proof. unfold ceil_div. destruct (y =? 0); reflexivity. Qed.

(** C8, as the code has it: [--amp_opt_level] and [--local_rank] are
    passed as they are to the NeuralModuleFactory, the first object of
    the run.  [--num_gpus] is no argument of the training call: it is
    read by [create_pipeline] alone, and two command lines that differ in
    it alone and get the same training steps per epoch make the same
    training calls. *)
Theorem flags_forwarded (w : world) (a : args.t) :
  path_exists w (args.data_dir a) = true ->
  (exists nf0 t',
     fst (run w a) = New_NeuralModuleFactory nf0 :: t'
     /\ nf_local_rank nf0 = args.local_rank a
     /\ nf_optimization_level nf0 = args.amp_opt_level a)
  /\ (forall n : Z,
        train_steps_per_epoch w (args.with_num_gpus n a) = train_steps_per_epoch w a ->
        train_calls (fst (run w (args.with_num_gpus n a))) = train_calls (fst (run w a))).
Proof.
  intros Hp. split.
  - unfold run. rewrite script_unfold. destruct (model_args_complete a) eqn:Hm.
    + destruct (setup_complete w a [] Hp Hm) as (nf0 & t1 & g & -> & _ & H1 & H2 & _).
      after_setup_cases w a g ipattern:((t2 & r & -> & _)).
      exists nf0. eexists. split; [reflexivity | auto].
    + destruct (setup_incomplete w a [] Hp Hm) as (nf0 & -> & H1 & H2).
      exists nf0, []. auto.
  - intros n. unfold run, train_steps_per_epoch. rewrite !script_unfold.
    unfold mbind, M_bind.
    change (setup w (args.with_num_gpus n a) []) with (setup w a []).
    destruct (setup w a []) as [t1 [g | e]]; [| reflexivity].
    unfold train_pipeline, eval_pipeline.
    change (train w (args.with_num_gpus n a)) with (train w a).
    change (create_pipeline w (args.with_num_gpus n a)) with (create_pipeline w a).
    cbn [args.with_num_gpus args.num_train_samples args.batch_size args.train_file_prefix
         args.num_gpus args.num_eval_samples args.eval_file_prefix].
    rewrite !script_train_calls.
    destruct (create_pipeline_unfold w a g (args.num_train_samples a) (args.batch_size a)
                (args.train_file_prefix a) true n t1) as (u1 & -> & _).
    destruct (create_pipeline_unfold w a g (args.num_train_samples a) (args.batch_size a)
                (args.train_file_prefix a) true (args.num_gpus a) t1) as (u2 & -> & _).
    cbv zeta.
    destruct (ceil_div _ (_ * n)) as [s1 |] eqn:E1;
      destruct (ceil_div _ (_ * args.num_gpus a)) as [s2 |] eqn:E2;
      try discriminate; try reflexivity.
    intros [= ->].
    apply ceil_div_ok_nonzero in E1, E2.
    match goal with
    | |- _ ++ match ?c1 with _ => _ end = _ ++ match ?c2 with _ => _ end =>
        assert (Hok : is_ok c1 = is_ok c2)
    end.
    { rewrite !ceil_div_is_ok. f_equal.
      destruct (Z.eqb_spec (effective_batch_size
                              (Z.of_N (len w (new_data_layer a g (args.num_eval_samples a)
                                                (args.batch_size a) (args.eval_file_prefix a)
                                                false)))
                              (args.batch_size a) * n) 0) as [H0 | H0];
        symmetry; [apply Z.eqb_eq | apply Z.eqb_neq]; nia. }
    destruct (ceil_div _ (_ * n)); destruct (ceil_div _ (_ * args.num_gpus a));
      try discriminate; reflexivity.
Qed.

Lemma flags_forwarded_witness :
  path_exists (sample_world 100) (args.data_dir args.defaults) = true
  /\ train_calls (fst (run (sample_world 100) (args.with_num_gpus 2 args.defaults)))
     = train_calls (fst (run (sample_world 100) args.defaults)).
Proof.
  split; [reflexivity |].
  apply (proj2 (flags_forwarded (sample_world 100) args.defaults eq_refl) 2).
  reflexivity.
Defined.

(** The claim of C8 fails for [--num_gpus]: with a data layer of 100
    examples, a run with [--num_gpus 2] builds the same objects and makes
    the same training call as a run with [--num_gpus 1], so the number
    reached nothing outside the script. *)
Lemma num_gpus_not_forwarded :
  args.num_gpus (args.with_num_gpus 2 args.defaults) <> args.num_gpus args.defaults
  /\ run (sample_world 100) (args.with_num_gpus 2 args.defaults)
     = run (sample_world 100) args.defaults
  /\ length (train_calls (fst (run (sample_world 100) args.defaults))) = 1%nat.
Proof.
  split; [discriminate |]. split; vm_compute; reflexivity.
Qed.

(** *** The weights of the aggregated loss *)






End ScriptFacts.

(** ** Properties of the rest of gpt2_nm.py *)

Module GPT2restFacts.
Import GPT2nm GPT2rest.

(** X1: as the module is written, every call of
    [GPT2.list_pretrained_models] raises a NameError on
    BERT_PRETRAINED_MODEL_ARCHIVE_MAP, whatever the maps of the
    transformers library hold: the module never imports that name. *)
Theorem list_pretrained_models_unbound
    (items : pyobj -> result (list (string * string)))
    (getitem : pyobj -> string -> result string) :
  module_globals !! "BERT_PRETRAINED_MODEL_ARCHIVE_MAP" = None
  /\ module_globals !! "BERT_PRETRAINED_CONFIG_ARCHIVE_MAP" = None
  /\ list_pretrained_models module_globals items getitem
     = Raise (NameError "BERT_PRETRAINED_MODEL_ARCHIVE_MAP").
Proof. repeat split; reflexivity. Qed.

Section Loop.
Variable G : gmap string pyobj.
Variable items : pyobj -> result (list (string * string)).
Variable getitem : pyobj -> string -> result string.

Lemma list_loop_ok (todo : list (string * string)) :
  forall acc l,
    list_loop G getitem todo acc = Ok l ->
    exists l', l = acc ++ l'
               /\ length l' = length todo
               /\ (todo <> [] ->
                   exists config_map,
                     G !! "BERT_PRETRAINED_CONFIG_ARCHIVE_MAP" = Some config_map
                     /\ Forall2 (entry_of getitem config_map) l' todo).
Proof.
  induction todo as [| [key value] todo IH]; intros acc l H; simpl in H.
  - injection H as <-. exists []. rewrite app_nil_r.
    split; [reflexivity |]. split; [reflexivity |]. intros Hne. congruence.
  - unfold load_global in H.
    destruct (G !! "PretrainedModelInfo") as [info |]; [| discriminate].
    destruct (G !! "BERT_PRETRAINED_CONFIG_ARCHIVE_MAP") as [config_map |] eqn:Ec;
      [| discriminate].
    simpl in H. destruct (getitem config_map key) as [parameters |] eqn:Eg; [| discriminate].
    simpl in H. destruct (IH _ _ H) as (l' & -> & Hlen & Hall).
    eexists (_ :: l'). rewrite <- app_assoc. split; [reflexivity |].
    split; [simpl; congruence |].
    intros _. exists config_map. split; [reflexivity |].
    constructor.
    + unfold entry_of. simpl. auto.
    + destruct todo as [| item todo'].
      * destruct l'; [constructor | discriminate].
      * destruct Hall as (c & Hc & HF); [discriminate |]. congruence.
Qed.

End Loop.

(** X2: whenever [list_pretrained_models] returns, the archive map is
    bound and the result has one entry per item of that map, in the
    map's order: named by the key, located at the value, described as
    "weights by HuggingFace", with the key's entry of the configuration
    map as parameters.  On an empty archive map it returns the empty list,
    whether or not the configuration map is bound. *)
Theorem list_pretrained_models_ok (G : gmap string pyobj)
    (items : pyobj -> result (list (string * string)))
    (getitem : pyobj -> string -> result string) :
  (forall l : list PretrainedModelInfo.t,
     list_pretrained_models G items getitem = Ok l ->
     exists archive_map todo,
       G !! "BERT_PRETRAINED_MODEL_ARCHIVE_MAP" = Some archive_map
       /\ items archive_map = Ok todo
       /\ length l = length todo
       /\ (todo <> [] ->
           exists config_map,
             G !! "BERT_PRETRAINED_CONFIG_ARCHIVE_MAP" = Some config_map
             /\ Forall2 (entry_of getitem config_map) l todo))
  /\ (forall archive_map,
        G !! "BERT_PRETRAINED_MODEL_ARCHIVE_MAP" = Some archive_map ->
        items archive_map = Ok [] ->
        list_pretrained_models G items getitem = Ok []).
Proof.
  unfold list_pretrained_models, load_global. split.
  - intros l H.
    destruct (G !! "BERT_PRETRAINED_MODEL_ARCHIVE_MAP") as [archive_map |] eqn:Ea;
      [| discriminate].
    simpl in H. destruct (items archive_map) as [todo |] eqn:Ei; [| discriminate].
    simpl in H. destruct (list_loop_ok G getitem todo [] l H) as (l' & -> & Hlen & Hall).
    exists archive_map, todo. simpl.
    split; [reflexivity |]. split; [exact Ei |]. split; [exact Hlen | exact Hall].
  - intros archive_map -> Hi. simpl. rewrite Hi. reflexivity.
Qed.

Lemma list_pretrained_models_ok_witness :
  exists l,
    list_pretrained_models globals_with_maps sample_items sample_getitem = Ok l
    /\ length l = 2%nat
    /\ list_pretrained_models globals_with_maps (fun _ => Ok []) sample_getitem = Ok [].
Proof.
  eexists. split; [reflexivity |].
  destruct (proj1 (list_pretrained_models_ok globals_with_maps sample_items sample_getitem)
              _ eq_refl) as (m & todo & Ea & Ei & Hlen & _).
  split.
  - rewrite Hlen. vm_compute in Ea. injection Ea as <-.
    vm_compute in Ei. injection Ei as <-. reflexivity.
  - apply (proj2 (list_pretrained_models_ok globals_with_maps (fun _ => Ok [])
                    sample_getitem) _ eq_refl eq_refl).
Defined.

(** X3: the constructor reads only [pretrained_model_name],
    [config_filename], [vocab_size] and, when [vocab_size] is given, the
    six sizes it passes to the configuration: two calls that agree on
    these do the same, whatever their [hidden_dropout_prob],
    [attention_probs_dropout_prob], [type_vocab_size],
    [initializer_range] and [layer_norm_eps]. *)
Theorem init_reads_only (G : gmap string pyobj) (_device : string)
    (config_hidden_size : hf_config -> Z) (a b : init_args) :
  same_read_arguments a b ->
  __init__ G _device config_hidden_size a = __init__ G _device config_hidden_size b.
Proof.
  destruct a, b. unfold same_read_arguments. simpl.
  intros (-> & -> & -> & H).
  unfold __init__, total, build_model. simpl.
  destruct vocab_size1 as [vs |]; [| reflexivity].
  destruct H as (-> & -> & -> & -> & -> & ->); [discriminate |]. reflexivity.
Qed.

Lemma init_reads_only_witness :
  same_read_arguments (call_with_dropouts 30522 0.5 7) (call_with None None (Some 30522))
  /\ __init__ globals_with_bert "cuda" (fun _ => 768) (call_with_dropouts 30522 0.5 7)
     = __init__ globals_with_bert "cuda" (fun _ => 768) (call_with None None (Some 30522))
  /\ is_ok (__init__ globals_with_bert "cuda" (fun _ => 768)
              (call_with_dropouts 30522 0.5 7)) = true.
Proof.
  assert (H : same_read_arguments (call_with_dropouts 30522 0.5 7)
                (call_with None None (Some 30522)))
    by (unfold same_read_arguments; simpl; intuition).
  split; [exact H |]. split; [| reflexivity].
  apply (init_reads_only globals_with_bert "cuda" (fun _ => 768) _ _ H).
Defined.

(** X4: on every instance the constructor returns, the property
    [hidden_size] is the hidden size of [self.config], which is the
    configuration of the one registered sub-module, ["bert"], on the
    device of the instance; so [forward] finds its module. *)
Theorem hidden_size_of_instance (G : gmap string pyobj) (_device : string)
    (config_hidden_size : hf_config -> Z) (a : init_args) (self : instance) :
  __init__ G _device config_hidden_size a = Ok self ->
  hidden_size self = config_hidden_size (config self)
  /\ exists bert,
       _modules self = {["bert" := (bert, _device)]}
       /\ config self = model_config bert
       /\ forall T (x y z : T), forward self x y z = Ok (ModelOutput bert x y z 0%nat).
Proof.
  unfold __init__. destruct (negb (total a =? 1)); [discriminate |].
  destruct (build_model G a) as [m | e]; [| discriminate].
  simpl. intros [= <-]. split; [reflexivity |].
  exists m. split; [reflexivity |]. split; [reflexivity |].
  intros T x y z. unfold forward. simpl. rewrite lookup_insert_eq. reflexivity.
Qed.

Lemma hidden_size_of_instance_witness :
  exists self,
    __init__ globals_with_bert "cuda" (fun _ => 768) (call_with (Some "gpt2") None None)
    = Ok self
    /\ hidden_size self = 768.
Proof.
  eexists. split; [reflexivity |].
  apply (hidden_size_of_instance globals_with_bert "cuda" (fun _ => 768)
           (call_with (Some "gpt2") None None) _ eq_refl).
Defined.

(** X5: wherever the names NeuralType and ChannelType are bound, as in
    this module, [input_ports] declares exactly the parameters of
    [forward], each over the axes (B, T), and [output_ports] declares
    the one port [hidden_states] over (B, T, D). *)
Theorem ports_declared (G : gmap string pyobj) (nt ct : pyobj) :
  G !! "NeuralType" = Some nt -> G !! "ChannelType" = Some ct ->
  exists ins outs,
    input_ports G = Ok ins /\ output_ports G = Ok outs
    /\ dom ins = list_to_set forward_parameters
    /\ (forall k t, ins !! k = Some t ->
          t = {| nt_class := nt; axes := ["B"; "T"]%string; elements_type := ct |})
    /\ outs = {["hidden_states" :=
                  {| nt_class := nt; axes := ["B"; "T"; "D"]%string; elements_type := ct |}]}.
Proof.
  intros Hn Hc. unfold input_ports, output_ports, port_type, load_global.
  rewrite Hn, Hc. simpl.
  eexists _, _. split; [reflexivity |]. split; [reflexivity |].
  split; [| split; [| reflexivity]].
  - unfold forward_parameters. rewrite !dom_insert_L, dom_empty_L. simpl. set_solver.
  - intros k t H.
    destruct (decide (k = "attention_mask")) as [-> | N1];
      [rewrite lookup_insert_eq in H; congruence | rewrite lookup_insert_ne in H by congruence].
    destruct (decide (k = "token_type_ids")) as [-> | N2];
      [rewrite lookup_insert_eq in H; congruence | rewrite lookup_insert_ne in H by congruence].
    destruct (decide (k = "input_ids")) as [-> | N3];
      [rewrite lookup_insert_eq in H; congruence | rewrite lookup_insert_ne in H by congruence].
    rewrite lookup_empty in H. discriminate.
Qed.

Lemma ports_declared_witness :
  exists ins, input_ports module_globals = Ok ins
              /\ dom ins = list_to_set forward_parameters.
Proof.
  destruct (ports_declared module_globals _ _ eq_refl eq_refl)
    as (ins & outs & Hi & _ & Hd & _).
  exists ins. split; assumption.
Defined.

End GPT2restFacts.

(** ** More properties of the training script *)

Module ScriptMoreFacts.
Import JointIntentSlot ScriptViews ScriptFacts.

Local Arguments ceil_div : simpl never.
Local Arguments new_data_layer : simpl never.
Local Arguments graph : simpl never.

Lemma warnings_app (t1 t2 : trace) : warnings (t1 ++ t2) = warnings t1 ++ warnings t2.
Proof. apply omap_app. Qed.

Lemma restores_app (t1 t2 : trace) : restores (t1 ++ t2) = restores t1 ++ restores t2.
Proof. apply omap_app. Qed.

Lemma tokenizers_app (t1 t2 : trace) :
  tokenizers (t1 ++ t2) = tokenizers t1 ++ tokenizers t2.
Proof. apply omap_app. Qed.

Lemma in_train_calls (c : train_call) (t : trace) :
  In (Train c) t <-> In c (train_calls t).
Proof.
  unfold train_calls. rewrite <- !list_elem_of_In, list_elem_of_omap. split.
  - intros H. exists (Train c). split; [exact H | reflexivity].
  - intros (e & He & Hc). destruct e; try discriminate. injection Hc as ->. exact He.
Qed.

(** The whole trace of [create_pipeline], event by event. *)
Lemma create_pipeline_trace (w : world) (a : args.t) (g : globals)
    (num_samples batch_size : Z) (data_prefix : string) (is_training : bool)
    (num_gpus : Z) (t : trace) :
  let layer := new_data_layer a g num_samples batch_size data_prefix is_training in
  let data_size := Z.of_N (len w layer) in
  let before :=
    [Logging "info" [Text "Loading "; Text data_prefix; Text " data..."];
     New_data_layer layer;
     Logging "info" [Text "The length of data layer is "; Int data_size]]
    ++ (if data_size <? batch_size
        then [Logging "warning" [Text "Batch_size is larger than the dataset size"];
              Logging "warning" [Text "Reducing batch_size to dataset size"]]
        else []) in
  create_pipeline w a g num_samples batch_size data_prefix is_training num_gpus t
  = match ceil_div data_size (effective_batch_size data_size batch_size * num_gpus) with
    | Ok steps_per_epoch =>
        (t ++ before ++ [Logging "info" [Text "Steps_per_epoch = "; Int steps_per_epoch]],
         Ok (fst (graph g (NM_data_layer layer) is_training),
             snd (graph g (NM_data_layer layer) is_training),
             steps_per_epoch, layer))
    | Raise e => (t ++ before, Raise e)
    end.
Proof.
  intros layer data_size before. subst before.
  unfold create_pipeline, effective_batch_size. fold layer. fold data_size.
  destruct (data_size <? batch_size); exec;
    destruct (ceil_div _ _) as [s | e]; cbn;
    try (destruct (graph g _ is_training) as [tensors total_loss]); cbn;
    rewrite <- ?app_assoc; reflexivity.
Qed.

(** The events of [train]: the last one is the training call. *)
Lemma train_last (w : world) (a : args.t) (g : globals) (train_tensors : list NmTensor)
    (train_loss : NmTensor) (steps : Z) (eval_tensors : list NmTensor) (t : trace) :
  exists u,
    train w a g train_tensors train_loss steps eval_tensors t
    = (t ++ u
         ++ [Train (nf_train a train_loss
                      [CB_train (train_callback g train_tensors steps);
                       CB_eval (eval_callback w g eval_tensors steps);
                       CB_ckpt (ckpt_callback w a g)]
                      (lr_policy_fn a steps))],
       Ok tt)
    /\ train_calls u = [] /\ data_layers u = [] /\ warnings u = [].
Proof.
  unfold train. exec. rewrite <- !app_assoc. cbn.
  eexists [_; _; _; _]. split; [reflexivity |]. repeat split; reflexivity.
Qed.

(** How a run goes once the data directory exists and the model
    arguments are complete: by the two divisions of line 195. *)
Lemma run_complete (w : world) (a : args.t) :
  path_exists w (args.data_dir a) = true ->
  model_args_complete a = true ->
  exists t1 g,
    setup w a [] = (t1, Ok g)
    /\ train_calls t1 = [] /\ data_layers t1 = []
    /\ match ceil_div (Z.of_N (len w (train_layer a g))) (divisor w a (train_layer a g)),
             ceil_div (Z.of_N (len w (eval_layer a g))) (divisor w a (eval_layer a g)) with
       | Raise e, _ =>
           exists u, run w a = (t1 ++ u, Raise e)
                     /\ train_calls u = [] /\ data_layers u = [train_layer a g]
       | Ok _, Raise e =>
           exists u, run w a = (t1 ++ u, Raise e)
                     /\ train_calls u = []
                     /\ data_layers u = [train_layer a g; eval_layer a g]
       | Ok steps, Ok _ =>
           exists u,
             run w a
             = (t1 ++ u
                  ++ [Train (nf_train a
                               (snd (graph g (NM_data_layer (train_layer a g)) true))
                               [CB_train (train_callback g
                                            (fst (graph g (NM_data_layer (train_layer a g))
                                                    true)) steps);
                                CB_eval (eval_callback w g
                                           (fst (graph g (NM_data_layer (eval_layer a g))
                                                   false)) steps);
                                CB_ckpt (ckpt_callback w a g)]
                               (lr_policy_fn a steps))],
                Ok tt)
             /\ train_calls u = []
             /\ data_layers u = [train_layer a g; eval_layer a g]
       end.
Proof.
  intros Hp Hm.
  destruct (setup_complete w a [] Hp Hm)
    as (nf0 & t' & g & E & _ & _ & _ & _ & _ & Ht & Hd & _).
  cbn [app] in E. eexists _, g. split; [exact E |].
  split; [exact Ht |]. split; [exact Hd |].
  unfold run. rewrite script_unfold, E. unfold train_pipeline, eval_pipeline.
  rewrite create_pipeline_trace. fold (train_layer a g).
  change (effective_batch_size (Z.of_N (len w (train_layer a g))) (args.batch_size a)
          * args.num_gpus a) with (divisor w a (train_layer a g)).
  destruct (ceil_div _ (divisor w a (train_layer a g))) as [s | e].
  2:{ eexists. split; [reflexivity |].
      rewrite train_calls_app, data_layers_app.
      destruct (_ <? _); split; reflexivity. }
  rewrite create_pipeline_trace. fold (eval_layer a g).
  change (effective_batch_size (Z.of_N (len w (eval_layer a g))) (args.batch_size a)
          * args.num_gpus a) with (divisor w a (eval_layer a g)).
  destruct (ceil_div _ (divisor w a (eval_layer a g))) as [s' | e].
  2:{ rewrite <- !app_assoc. eexists. split; [reflexivity |].
      rewrite !train_calls_app, !data_layers_app.
      destruct (_ <? _); destruct (_ <? _); split; reflexivity. }
  match goal with
  | |- context [train w a g ?tt ?tl ?st ?et ?t3] =>
      destruct (train_last w a g tt tl st et t3) as (u3 & -> & Ht3 & Hd3 & _)
  end.
  match goal with
  | |- exists u, (((_ ++ ?p) ++ ?q) ++ ?r ++ _, _) = _ /\ _ => exists (p ++ q ++ r)
  end.
  split; [rewrite <- !app_assoc; reflexivity |].
  rewrite !train_calls_app, !data_layers_app, Ht3, Hd3.
  destruct (_ <? _); destruct (_ <? _); split; reflexivity.
Qed.

Lemma ceil_div_cases (x d : Z) :
  (d = 0 /\ ceil_div x d = Raise ZeroDivisionError)
  \/ (d <> 0 /\ ceil_div x d = Ok (- (- x / d))).
Proof.
  destruct (Z.eq_dec d 0) as [-> | H]; [left | right]; split; auto.
  apply ceil_div_nonzero, H.
Qed.

(** X6: how every run ends.  A missing data directory gives the
    ValueError; an existing one with incomplete Megatron arguments the
    FileNotFoundError; otherwise the run raises ZeroDivisionError when
    the division of line 195 is by zero for the training or for the
    evaluation data, and returns in every other case. *)
Theorem run_outcome (w : world) (a : args.t) :
  (path_exists w (args.data_dir a) = false
   /\ run w a = ([], Raise (ValueError ("Data not found at " ++ args.data_dir a))))
  \/ (path_exists w (args.data_dir a) = true /\ model_args_complete a = false
      /\ snd (run w a)
         = Raise (FileNotFoundError
             "Config file, checkpoint and vocabulary file should be provided for Megatron models."))
  \/ (path_exists w (args.data_dir a) = true /\ model_args_complete a = true
      /\ exists t1 g,
           setup w a [] = (t1, Ok g)
           /\ (((divisor w a (train_layer a g) = 0 \/ divisor w a (eval_layer a g) = 0)
                /\ snd (run w a) = Raise ZeroDivisionError)
               \/ (divisor w a (train_layer a g) <> 0 /\ divisor w a (eval_layer a g) <> 0
                   /\ snd (run w a) = Ok tt))).
Proof.
  destruct (path_exists w (args.data_dir a)) eqn:Hp.
  2:{ left. split; [reflexivity |]. unfold run.
      rewrite script_unfold, setup_missing_data by exact Hp. reflexivity. }
  right. destruct (model_args_complete a) eqn:Hm.
  2:{ left. split; [reflexivity |]. split; [reflexivity |]. unfold run.
      rewrite script_unfold.
      destruct (setup_incomplete w a [] Hp Hm) as (nf0 & -> & _). reflexivity. }
  right. split; [reflexivity |]. split; [reflexivity |].
  destruct (run_complete w a Hp Hm) as (t1 & g & E & _ & _ & H).
  exists t1, g. split; [exact E |].
  destruct (ceil_div_cases (Z.of_N (len w (train_layer a g))) (divisor w a (train_layer a g)))
    as [[H0 E0] | [H0 E0]]; rewrite E0 in H.
  { destruct H as (u & -> & _). left. auto. }
  destruct (ceil_div_cases (Z.of_N (len w (eval_layer a g))) (divisor w a (eval_layer a g)))
    as [[H1 E1] | [H1 E1]]; rewrite E1 in H; destruct H as (u & -> & _);
    [left | right]; auto.
Qed.

(** X7: a run makes the training call exactly once, as its last effect,
    when it returns, and never when it raises. *)
Theorem trains_once (w : world) (a : args.t) :
  (snd (run w a) = Ok tt ->
   exists t c, fst (run w a) = t ++ [Train c] /\ train_calls t = [])
  /\ (forall e, snd (run w a) = Raise e -> train_calls (fst (run w a)) = []).
Proof.
  destruct (path_exists w (args.data_dir a)) eqn:Hp.
  2:{ unfold run. rewrite script_unfold, setup_missing_data by exact Hp.
      split; [discriminate | reflexivity]. }
  destruct (model_args_complete a) eqn:Hm.
  2:{ unfold run. rewrite script_unfold.
      destruct (setup_incomplete w a [] Hp Hm) as (nf0 & -> & _).
      split; [discriminate | reflexivity]. }
  destruct (run_complete w a Hp Hm) as (t1 & g & E & Ht1 & _ & H).
  destruct (ceil_div _ (divisor w a (train_layer a g))) as [s | e].
  2:{ destruct H as (u & -> & Hu & _). split; [discriminate |].
      intros _ _. cbn [fst]. rewrite train_calls_app, Ht1, Hu. reflexivity. }
  destruct (ceil_div _ (divisor w a (eval_layer a g))) as [s' | e];
    destruct H as (u & -> & Hu & _).
  - split; [| discriminate]. intros _. eexists (t1 ++ u), _. cbn [fst].
    rewrite <- app_assoc. split; [reflexivity |].
    rewrite train_calls_app, Ht1, Hu. reflexivity.
  - split; [discriminate |].
    intros _ _. cbn [fst]. rewrite train_calls_app, Ht1, Hu. reflexivity.
Qed.

Lemma trains_once_witness :
  (exists t c, fst (run (sample_world 1000) args.defaults) = t ++ [Train c]
               /\ train_calls t = [])
  /\ train_calls (fst (run (sample_world 0) args.defaults)) = [].
Proof.
  split.
  - apply (proj1 (trains_once (sample_world 1000) args.defaults)). reflexivity.
  - apply (proj2 (trains_once (sample_world 0) args.defaults) ZeroDivisionError).
    reflexivity.
Defined.

Lemma train_steps_per_epoch_eq (w : world) (a : args.t) (t1 : trace) (g : globals) :
  setup w a [] = (t1, Ok g) ->
  train_steps_per_epoch w a
  = match ceil_div (Z.of_N (len w (train_layer a g))) (divisor w a (train_layer a g)) with
    | Ok steps => Some steps
    | Raise _ => None
    end.
Proof.
  intros E. unfold train_steps_per_epoch, mbind, M_bind. rewrite E.
  unfold train_pipeline. rewrite create_pipeline_trace. fold (train_layer a g).
  change (effective_batch_size (Z.of_N (len w (train_layer a g))) (args.batch_size a)
          * args.num_gpus a) with (divisor w a (train_layer a g)).
  destruct (ceil_div _ _); reflexivity.
Qed.

(** X8: the training call of a run optimises the total loss of the
    training pipeline; its callbacks are the loss logger on the training
    tensors, the evaluator on the evaluation tensors and the
    checkpointer, in this order; the logger's step frequency and the
    evaluator's step are both the training steps per epoch, and the
    policy's total steps is [num_epochs] times that; the optimisation
    parameters hold [num_epochs], [lr] and [weight_decay] and nothing
    else. *)
Theorem training_call_arguments (w : world) (a : args.t) (c : train_call) :
  In (Train c) (fst (run w a)) ->
  exists t1 g steps,
    setup w a [] = (t1, Ok g)
    /\ train_steps_per_epoch w a = Some steps
    /\ tr_tensors_to_optimize c = [snd (graph g (NM_data_layer (train_layer a g)) true)]
    /\ (exists logger evaluator checkpointer,
          tr_callbacks c = [CB_train logger; CB_eval evaluator; CB_ckpt checkpointer]
          /\ sl_tensors logger = fst (graph g (NM_data_layer (train_layer a g)) true)
          /\ ev_eval_tensors evaluator = fst (graph g (NM_data_layer (eval_layer a g)) false)
          /\ sl_step_freq logger = steps /\ ev_eval_step evaluator = steps
          /\ ck_epoch_freq checkpointer = args.save_epoch_freq a
          /\ ck_step_freq checkpointer = args.save_step_freq a)
    /\ lrp_name (tr_lr_policy c) = args.lr_policy a
    /\ lrp_total_steps (tr_lr_policy c) = args.num_epochs a * steps
    /\ lrp_warmup_ratio (tr_lr_policy c) = args.lr_warmup_proportion a
    /\ tr_optimizer c = args.optimizer_kind a
    /\ dom (tr_optimization_params c) = {["num_epochs"; "lr"; "weight_decay"]}
    /\ tr_optimization_params c !! "num_epochs" = Some (PyInt (args.num_epochs a))
    /\ tr_optimization_params c !! "lr" = Some (PyFloat (args.lr a))
    /\ tr_optimization_params c !! "weight_decay" = Some (PyFloat (args.weight_decay a)).
Proof.
  intros Hin. apply in_train_calls in Hin.
  destruct (path_exists w (args.data_dir a)) eqn:Hp.
  2:{ unfold run in Hin. rewrite script_unfold, setup_missing_data in Hin by exact Hp.
      destruct Hin. }
  destruct (model_args_complete a) eqn:Hm.
  2:{ unfold run in Hin. rewrite script_unfold in Hin.
      destruct (setup_incomplete w a [] Hp Hm) as (nf0 & E & _). rewrite E in Hin.
      destruct Hin. }
  destruct (run_complete w a Hp Hm) as (t1 & g & E & Ht1 & _ & H).
  pose proof (train_steps_per_epoch_eq w a t1 g E) as Hs.
  destruct (ceil_div _ (divisor w a (train_layer a g))) as [s | e].
  2:{ destruct H as (u & Er & Hu & _). rewrite Er in Hin. cbn [fst] in Hin.
      rewrite train_calls_app, Ht1, Hu in Hin. destruct Hin. }
  destruct (ceil_div _ (divisor w a (eval_layer a g))) as [s' | e];
    destruct H as (u & Er & Hu & _); rewrite Er in Hin; cbn [fst] in Hin;
    rewrite !train_calls_app, Ht1, Hu in Hin; [| destruct Hin].
  destruct Hin as [<- | []].
  exists t1, g, s. split; [exact E |]. split; [exact Hs |]. split; [reflexivity |].
  split; [eexists _, _, _; repeat split; reflexivity |].
  do 4 (split; [reflexivity |]).
  split; [| repeat split; reflexivity].
  cbn [tr_optimization_params nf_train]. rewrite !dom_insert_L, dom_empty_L. set_solver.
Qed.

Lemma training_call_arguments_witness :
  exists c,
    In (Train c) (fst (run (sample_world 1000) args.defaults))
    /\ lrp_total_steps (tr_lr_policy c) = 80
    /\ tr_optimization_params c !! "num_epochs" = Some (PyInt 10).
Proof.
  assert (Hex : exists c, In c (train_calls (fst (run (sample_world 1000) args.defaults))))
    by (vm_compute; eexists; left; reflexivity).
  destruct Hex as [c Hin]. apply in_train_calls in Hin.
  exists c. split; [exact Hin |].
  destruct (training_call_arguments (sample_world 1000) args.defaults c Hin)
    as (t1 & g & s & _ & Hs & _ & _ & _ & Hl & _ & _ & _ & Hn & _).
  assert (s = 8) by (vm_compute in Hs; congruence). subst s.
  split; [exact Hl | exact Hn].
Defined.

Lemma create_pipeline_data_layers (w : world) (a : args.t) (g : globals)
    (num_samples batch_size : Z) (data_prefix : string) (is_training : bool)
    (num_gpus : Z) (t : trace) :
  data_layers (fst (create_pipeline w a g num_samples batch_size data_prefix is_training
                      num_gpus t))
  = data_layers t ++ [new_data_layer a g num_samples batch_size data_prefix is_training].
Proof.
  destruct (create_pipeline_unfold w a g num_samples batch_size data_prefix is_training
              num_gpus t) as (u & E & Hd & _).
  rewrite E. destruct (ceil_div _ _); cbn [fst];
    rewrite !data_layers_app, Hd, ?app_nil_r; reflexivity.
Qed.

Lemma effective_batch_size_min (data_size batch_size : Z) :
  effective_batch_size data_size batch_size = Z.min data_size batch_size.
Proof.
  unfold effective_batch_size.
  destruct (Z.ltb_spec data_size batch_size); lia.
Qed.

(** X9: [create_pipeline] logs its two warnings exactly when the data
    layer holds fewer examples than [batch_size]; the data layer was
    built before, with the batch size of the call, and keeps it: the
    lowered value, the smaller of the two, only enters the steps per
    epoch. *)
Theorem batch_size_reduction (w : world) (a : args.t) (g : globals)
    (num_samples batch_size : Z) (data_prefix : string) (is_training : bool)
    (num_gpus : Z) (t : trace) :
  let layer := new_data_layer a g num_samples batch_size data_prefix is_training in
  let data_size := Z.of_N (len w layer) in
  let end_ := create_pipeline w a g num_samples batch_size data_prefix is_training
                num_gpus t in
  warnings (fst end_)
  = warnings t
    ++ (if data_size <? batch_size
        then [[Text "Batch_size is larger than the dataset size"];
              [Text "Reducing batch_size to dataset size"]]
        else [])
  /\ data_layers (fst end_) = data_layers t ++ [layer]
  /\ dl_batch_size layer = batch_size
  /\ (forall tensors total_loss steps_per_epoch data_layer,
        snd end_ = Ok (tensors, total_loss, steps_per_epoch, data_layer) ->
        data_layer = layer
        /\ ceil_div data_size (Z.min data_size batch_size * num_gpus) = Ok steps_per_epoch).
Proof.
  intros layer data_size end_. subst end_.
  rewrite create_pipeline_trace. fold layer. fold data_size.
  rewrite (effective_batch_size_min data_size batch_size).
  destruct (ceil_div data_size (Z.min data_size batch_size * num_gpus)) as [s | e];
    cbn [fst snd]; rewrite !warnings_app, !data_layers_app;
    (split; [| split; [| split; [reflexivity |]]]).
  - destruct (data_size <? batch_size); cbn; rewrite ?app_nil_r; reflexivity.
  - destruct (data_size <? batch_size); cbn; rewrite ?app_nil_r; reflexivity.
  - intros tensors total_loss steps data_layer [= _ _ <- <-]. auto.
  - destruct (data_size <? batch_size); cbn; rewrite ?app_nil_r; reflexivity.
  - destruct (data_size <? batch_size); cbn; rewrite ?app_nil_r; reflexivity.
  - discriminate.
Qed.

Lemma batch_size_reduction_witness :
  warnings (fst (create_pipeline (sample_world 100) args.defaults sample_globals (-1) 128
                   "train" true 1 []))
  = [[Text "Batch_size is larger than the dataset size"];
     [Text "Reducing batch_size to dataset size"]]
  /\ ceil_div 100 (Z.min 100 128 * 1) = Ok 1.
Proof.
  destruct (batch_size_reduction (sample_world 100) args.defaults sample_globals (-1) 128
              "train" true 1 []) as (Hw & _ & _ & Hs).
  split; [exact Hw |].
  exact (proj2 (Hs _ _ 1 _ eq_refl)).
Defined.

(** X10: [create_pipeline] raises nothing but ZeroDivisionError, and
    raises it exactly when [num_gpus] is 0, or [batch_size] is 0, or the
    data layer is empty and [batch_size] positive; by then the data layer
    has been built. *)
Theorem create_pipeline_error (w : world) (a : args.t) (g : globals)
    (num_samples batch_size : Z) (data_prefix : string) (is_training : bool)
    (num_gpus : Z) (t : trace) :
  let layer := new_data_layer a g num_samples batch_size data_prefix is_training in
  let data_size := Z.of_N (len w layer) in
  let end_ := create_pipeline w a g num_samples batch_size data_prefix is_training
                num_gpus t in
  (snd end_ = Raise ZeroDivisionError
   <-> num_gpus = 0 \/ batch_size = 0 \/ (data_size = 0 /\ 0 < batch_size))
  /\ (forall e, snd end_ = Raise e ->
        e = ZeroDivisionError /\ data_layers (fst end_) = data_layers t ++ [layer]).
Proof.
  intros layer data_size end_.
  assert (Hpos : 0 <= data_size) by apply N2Z.is_nonneg.
  assert (Hz : effective_batch_size data_size batch_size * num_gpus = 0
               <-> num_gpus = 0 \/ batch_size = 0 \/ (data_size = 0 /\ 0 < batch_size)).
  { rewrite effective_batch_size_min. split; [intros H | intros [-> | [-> | [H1 H2]]]]; nia. }
  pose proof (create_pipeline_data_layers w a g num_samples batch_size data_prefix
                is_training num_gpus t) as Hd.
  subst end_. rewrite create_pipeline_trace in *. fold layer in Hd |- *.
  fold data_size in Hd |- *.
  destruct (ceil_div_cases data_size (effective_batch_size data_size batch_size * num_gpus))
    as [[H0 E0] | [H0 E0]]; rewrite E0 in *; cbn [fst snd] in *.
  - split; [split; [intros _; apply Hz, H0 | reflexivity] |].
    intros e [= <-]. split; [reflexivity | exact Hd].
  - split; [split; [discriminate | intros H; apply Hz in H; contradiction] |].
    discriminate.
Qed.

Lemma create_pipeline_error_witness :
  snd (create_pipeline (sample_world 0) args.defaults sample_globals (-1) 128 "train" true 1 [])
  = Raise ZeroDivisionError
  /\ data_layers (fst (create_pipeline (sample_world 0) args.defaults sample_globals (-1)
                         128 "train" true 1 []))
     = [new_data_layer args.defaults sample_globals (-1) 128 "train" true].
Proof.
  destruct (create_pipeline_error (sample_world 0) args.defaults sample_globals (-1) 128
              "train" true 1 []) as [Hi He].
  assert (H : snd (create_pipeline (sample_world 0) args.defaults sample_globals (-1) 128
                     "train" true 1 []) = Raise ZeroDivisionError).
  { apply Hi. right. right. split; [reflexivity | reflexivity]. }
  split; [exact H |]. exact (proj2 (He _ H)).
Defined.



(** What [setup] has built when it returns, object by object. *)
Lemma setup_inv (w : world) (a : args.t) (t t' : trace) (g : globals) :
  setup w a t = (t', Ok g) ->
  let megatron := String.eqb (args.pretrained_model_name a) "megatron" in
  let src :=
    if megatron
    then MegatronBERT (args.bert_config a) (args.vocab_file a)
    else get_huggingface_model (args.bert_config a) (args.pretrained_model_name a) in
  let restored := truthy (args.bert_checkpoint a) in
  let weighted := String.eqb (args.class_balancing a) "weighted_loss" in
  let desc := describe w (args.data_dir a) (args.none_slot_label a) (args.pad_label a) in
  path_exists w (args.data_dir a) = true
  /\ model_args_complete a = true
  /\ model g = {| enc_source := src;
                  enc_restored_from := if restored then [args.bert_checkpoint a] else [] |}
  /\ tokenizer g = {| tk_tokenizer_name := args.tokenizer a;
                      tk_pretrained_model_name := args.pretrained_model_name a;
                      tk_tokenizer_model := args.tokenizer_model a;
                      tk_vocab_file := args.vocab_file a;
                      tk_do_lower_case := megatron |}
  /\ data_desc g = desc
  /\ classifier g = {| cl_hidden_size := hidden_size w (model g);
                       cl_num_intents := JointIntentSlotDataDesc.num_intents desc;
                       cl_num_slots := JointIntentSlotDataDesc.num_slots desc;
                       cl_dropout := args.fc_dropout a |}
  /\ intent_loss_fn g
     = {| ce_logits_ndim := 2;
          ce_weight := if weighted
                       then Some (JointIntentSlotDataDesc.intent_weights desc) else None |}
  /\ slot_loss_fn g
     = {| ce_logits_ndim := 3;
          ce_weight := if weighted
                       then Some (JointIntentSlotDataDesc.slot_weights desc) else None |}
  /\ t' = t ++ [New_NeuralModuleFactory (nf g); New_encoder src; New_tokenizer (tokenizer g)]
            ++ (if restored
                then [Restore_from (args.bert_checkpoint a);
                      Logging "info" [Text "Model restored from ";
                                      Value (args.bert_checkpoint a)]]
                else [])
            ++ [New_data_desc (args.data_dir a) (args.none_slot_label a) (args.pad_label a);
                New_classifier (classifier g);
                New_cross_entropy (intent_loss_fn g);
                New_cross_entropy (slot_loss_fn g);
                New_loss_aggregator (total_loss_fn g)].
Proof.
  unfold model_args_complete.
  unfold setup, check_data_dir, make_nf, select_model, make_tokenizer, restore,
    make_data_desc, make_classifier, make_losses, make_cross_entropy, make_total_loss_fn.
  rewrite megatron_test.
  destruct (path_exists w (args.data_dir a));
    destruct (String.eqb (args.pretrained_model_name a) "megatron");
    destruct (truthy (args.bert_config a));
    destruct (truthy (args.bert_checkpoint a));
    destruct (truthy (args.vocab_file a));
    destruct (String.eqb (args.class_balancing a) "weighted_loss");
    exec; intros [= <- <-]; rewrite <- ?app_assoc; repeat split; reflexivity.
Qed.

(** X12: when [setup] returns, the encoder has been restored from
    [--bert_checkpoint] exactly when that flag is given and not empty,
    which is always the case for a Megatron model; the run restores
    nothing else, and the classifier is sized by the hidden size read
    from the encoder after the restore and by the numbers of intents and
    slots of the data description. *)
Theorem restored_encoder (w : world) (a : args.t) (t t' : trace) (g : globals) :
  setup w a t = (t', Ok g) ->
  enc_restored_from (model g)
  = (if truthy (args.bert_checkpoint a) then [args.bert_checkpoint a] else [])
  /\ restores t' = restores t ++ enc_restored_from (model g)
  /\ (args.pretrained_model_name a = "megatron"%string ->
      enc_restored_from (model g) = [args.bert_checkpoint a])
  /\ cl_hidden_size (classifier g) = hidden_size w (model g)
  /\ cl_num_intents (classifier g) = JointIntentSlotDataDesc.num_intents (data_desc g)
  /\ cl_num_slots (classifier g) = JointIntentSlotDataDesc.num_slots (data_desc g).
Proof.
  intros H. destruct (setup_inv w a t t' g H)
    as (_ & Hm & Em & _ & Ed & Ec & _ & _ & Et).
  cbv zeta in *.
  split; [rewrite Em; reflexivity |]. split; [| split; [| split; [| split]]].
  - rewrite Et, Em, !restores_app. cbn [enc_restored_from].
    destruct (truthy (args.bert_checkpoint a)); cbn; rewrite ?app_nil_r; reflexivity.
  - intros Hn. rewrite Em. cbn [enc_restored_from].
    unfold model_args_complete in Hm. rewrite Hn in Hm. cbn in Hm.
    destruct (truthy (args.bert_checkpoint a)); [reflexivity |].
    rewrite andb_false_r in Hm. discriminate.
  - rewrite Ec. reflexivity.
  - rewrite Ec, Ed. reflexivity.
  - rewrite Ec, Ed. reflexivity.
Qed.

Lemma restored_encoder_witness :
  exists g,
    snd (setup (sample_world 1000) megatron_args []) = Ok g
    /\ enc_restored_from (model g) = [Some "megatron.pt"]%string.
Proof.
  eexists. split; [reflexivity |].
  refine (proj1 (proj2 (proj2 (restored_encoder (sample_world 1000) megatron_args []
                                  (fst (setup (sample_world 1000) megatron_args [])) _
                                  eq_refl))) eq_refl).
Defined.

(** X13: [--do_lower_case] does not reach the tokenizer: the module-level
    objects are the same with and without it, and the tokenizer lowers
    case exactly when the model name is megatron.  The flag goes to the
    data layers, which all use the one tokenizer of the run. *)
Theorem do_lower_case_flag (w : world) (a : args.t) (b : bool) (t : trace) :
  setup w (with_do_lower_case b a) t = setup w a t
  /\ (forall t' g,
        setup w a t = (t', Ok g) ->
        tk_do_lower_case (tokenizer g) = String.eqb (args.pretrained_model_name a) "megatron"
        /\ tokenizers t' = tokenizers t ++ [tokenizer g]
        /\ forall num_samples batch_size data_prefix is_training,
             dl_tokenizer (new_data_layer (with_do_lower_case b a) g num_samples batch_size
                             data_prefix is_training) = tokenizer g
             /\ dl_do_lower_case (new_data_layer (with_do_lower_case b a) g num_samples
                                    batch_size data_prefix is_training) = b).
Proof.
  split; [reflexivity |].
  intros t' g H. destruct (setup_inv w a t t' g H) as (_ & _ & _ & Etk & _ & _ & _ & _ & Et).
  cbv zeta in *. split; [rewrite Etk; reflexivity |]. split.
  - rewrite Et, !tokenizers_app.
    destruct (truthy (args.bert_checkpoint a)); cbn; rewrite ?app_nil_r; reflexivity.
  - intros. split; reflexivity.
Qed.

Lemma do_lower_case_flag_witness :
  tk_do_lower_case (tokenizer sample_globals) = false
  /\ tokenizers (fst (setup (sample_world 1000) (with_do_lower_case true args.defaults) []))
     = [tokenizer sample_globals].
Proof.
  destruct (do_lower_case_flag (sample_world 1000) args.defaults true []) as [E H].
  destruct (H (fst (setup (sample_world 1000) args.defaults [])) sample_globals eq_refl)
    as (H1 & H2 & _).
  split; [exact H1 |]. rewrite E. exact H2.
Defined.

(** X14: the two cross-entropy losses always take logits of 2 and of 3
    dimensions; they are weighted, by the intent and slot weights of the
    data description, exactly when [--class_balancing] is
    [weighted_loss]. *)
Theorem loss_functions (w : world) (a : args.t) (t t' : trace) (g : globals) :
  setup w a t = (t', Ok g) ->
  ce_logits_ndim (intent_loss_fn g) = 2 /\ ce_logits_ndim (slot_loss_fn g) = 3
  /\ (args.class_balancing a = "weighted_loss"%string ->
      ce_weight (intent_loss_fn g)
      = Some (JointIntentSlotDataDesc.intent_weights (data_desc g))
      /\ ce_weight (slot_loss_fn g)
         = Some (JointIntentSlotDataDesc.slot_weights (data_desc g)))
  /\ (args.class_balancing a <> "weighted_loss"%string ->
      ce_weight (intent_loss_fn g) = None /\ ce_weight (slot_loss_fn g) = None).
Proof.
  intros H. destruct (setup_inv w a t t' g H) as (_ & _ & _ & _ & Ed & _ & Ei & Es & _).
  cbv zeta in *. rewrite Ei, Es, Ed. cbn [ce_logits_ndim ce_weight].
  split; [reflexivity |]. split; [reflexivity |]. split.
  - intros ->. split; reflexivity.
  - intros Hn. apply String.eqb_neq in Hn. rewrite Hn. split; reflexivity.
Qed.

Lemma loss_functions_witness :
  ce_logits_ndim (intent_loss_fn sample_globals) = 2
  /\ ce_weight (intent_loss_fn sample_globals) = None.
Proof.
  destruct (loss_functions (sample_world 1000) args.defaults []
              (fst (setup (sample_world 1000) args.defaults [])) sample_globals eq_refl)
    as (H1 & _ & _ & H2).
  split; [exact H1 |]. apply H2. discriminate.
Defined.


(** X16: the graph of a pipeline is made of the modules of the run and
    of the outputs of its own data layer, which takes no input; the
    encoder is called under the keywords [input_ids], [token_type_ids]
    and [attention_mask], the parameters of GPT2's [forward].  A
    training pipeline hands out three tensors, the total loss first and
    the two losses it aggregates; an evaluation pipeline hands out five,
    none of them a loss. *)
Theorem graph_closed (g : globals) (layer : BertJointIntentSlotDataLayer)
    (is_training : bool) :
  let tensors := fst (graph g (NM_data_layer layer) is_training) in
  let total_loss := snd (graph g (NM_data_layer layer) is_training) in
  (forall x, In x (subtensors total_loss) ->
     In (producer x)
       [NM_data_layer layer; NM_encoder (model g); NM_classifier (classifier g);
        NM_cross_entropy (intent_loss_fn g); NM_cross_entropy (slot_loss_fn g);
        NM_loss_aggregator (total_loss_fn g)])
  /\ (forall x, In x (subtensors total_loss) ->
        producer x = NM_encoder (model g) -> keywords x = GPT2rest.forward_parameters)
  /\ (forall x l, In x (subtensors total_loss) ->
        producer x = NM_data_layer l -> l = layer /\ inputs x = [])
  /\ (is_training = true ->
      exists intent_loss slot_loss,
        tensors = [total_loss; intent_loss; slot_loss]
        /\ inputs total_loss = [("loss_1", intent_loss); ("loss_2", slot_loss)]%string)
  /\ (is_training = false ->
      length tensors = 5%nat
      /\ forall x, In x tensors ->
           producer x = NM_classifier (classifier g) \/ producer x = NM_data_layer layer).
Proof.
  unfold graph, call, call2, field, keywords. cbn.
  split; [| split; [| split; [| split]]].
  - intros x H. repeat (destruct H as [<- | H]; [cbn; tauto |]). destruct H.
  - intros x H. repeat (destruct H as [<- | H]; [cbn; try discriminate; auto |]).
    destruct H.
  - intros x l H.
    repeat (destruct H as [<- | H];
            [cbn; try discriminate; intros [= <-]; split; reflexivity |]).
    destruct H.
  - intros ->. eexists _, _. split; reflexivity.
  - intros ->. cbn. split; [reflexivity |].
    intros x H. repeat (destruct H as [<- | H]; [cbn; tauto |]). destruct H.
Qed.

End ScriptMoreFacts.
